(** * AppSec span processor and OpenSearch request wrapper of dd-trace-py

    A shallow embedding of [ddtrace/appsec/processor.py] and of the part of
    [ddtrace/contrib/opensearch/patch.py] that runs once the wrapped call has
    been made, together with the properties the design document states about
    them.

    Python objects are embedded as values of [pyval]; a Python [dict], which
    keeps its keys in insertion order, is an association list with distinct
    keys; a Python [set] of strings is a [gset string]; code that mutates a
    span and may raise runs in the monad [M]. *)

From Stdlib Require Import ZArith Ascii String List Lia.
From Stdlib Require QArith.
From stdpp Require Import gmap strings list fin_maps pretty.

Open Scope string_scope.
Open Scope list_scope.

(* ===================================================================== *)
(** ** Python strings *)
(* ===================================================================== *)

(** A [str] is a [string] whose characters are the code points below 256.
    [str.lower] maps [A-Z] and the upper-case letters of Latin-1
    (U+00C0 to U+00DE, the multiplication sign U+00D7 apart) 32 code
    points up and leaves every other code point alone. *)
Definition lower_ascii (c : ascii) : ascii :=
  let n := N_of_ascii c in
  if ((65 <=? n) && (n <=? 90) ||
      (192 <=? n) && (n <=? 222) && negb (n =? 215))%N
  then ascii_of_N (n + 32) else c.

Fixpoint lower (s : string) : string :=
  match s with
  | EmptyString => EmptyString
  | String c s' => String (lower_ascii c) (lower s')
  end.

(** The double quote, which a string literal of this file cannot hold. *)
Definition dquote : ascii := ascii_of_N 34.

(* ===================================================================== *)
(** ** Python values *)
(* ===================================================================== *)

(** The values that flow through the two modules: header values are
    [str] or [list]; context items and response bodies are what a JSON
    document deserializes to, and a transport may return a [tuple].
    Floats do not occur in the embedded code paths other than as the
    metric literal [1.0], see [number]. *)
#[local] Set Warnings "-register-all".
Inductive pyval : Type :=
| PNone
| PBool (b : bool)
| PInt (z : Z)
| PStr (s : string)
| PList (l : list pyval)
| PTuple (l : list pyval)
| PDict (d : list (string * pyval)).

(** An insertion-ordered [dict] with [str] keys. *)
Abbreviation dict V := (list (string * V)).

Fixpoint dict_get {V : Type} (d : dict V) (k : string) : option V :=
  match d with
  | [] => None
  | (k', v) :: d' => if decide (k' = k) then Some v else dict_get d' k
  end.

(** [d[k] = v]: an existing key keeps its position, a new key goes last. *)
Fixpoint dict_set {V : Type} (k : string) (v : V) (d : dict V) : dict V :=
  match d with
  | [] => [(k, v)]
  | (k', v') :: d' =>
      if decide (k' = k) then (k', v) :: d' else (k', v') :: dict_set k v d'
  end.

Definition dict_keys {V : Type} (d : dict V) : list string := map fst d.

(** Python exceptions, as far as the embedded code tells them apart.
    [BaseExceptionOnly] stands for the exceptions that do not derive from
    [Exception] ([KeyboardInterrupt], [SystemExit], ...). *)
Inductive exn : Type :=
| EnvironmentError (errno : Z)
| JSONDecodeError
| ValueError
| TypeError
| AttributeError
| TransportError (status_code : option pyval)
| OtherException (name : string)
| BaseExceptionOnly (name : string).

Definition is_Exception (e : exn) : bool :=
  match e with
  | BaseExceptionOnly _ => false
  | _ => true
  end.

(** The outcome of a call: a value or a raised exception. *)
Inductive result (A : Type) : Type :=
| Val (a : A)
| Exn (e : exn).
Arguments Val {A} a.
Arguments Exn {A} e.

(* ===================================================================== *)
(** ** [str()] and [repr()] *)
(* ===================================================================== *)

Definition hex_digit (n : N) : ascii :=
  if (n <? 10)%N then ascii_of_N (48 + n) else ascii_of_N (87 + n).

(** A character is printed as it is by [repr] when it is printable: the
    ASCII range from the space to the tilde, and Latin-1 above U+00A0
    except the soft hyphen U+00AD. *)
Definition isprintable (c : ascii) : bool :=
  let n := N_of_ascii c in
  ((32 <=? n) && (n <=? 126) || (161 <=? n) && negb (n =? 173))%N.

Definition repr_char (quote : ascii) (c : ascii) : string :=
  let n := N_of_ascii c in
  if decide (c = quote) then String "\" (String c "")
  else if (n =? 92)%N then "\\"
  else if (n =? 9)%N then "\t"
  else if (n =? 10)%N then "\n"
  else if (n =? 13)%N then "\r"
  else if isprintable c then String c ""
  else String "\" (String "x" (String (hex_digit (n / 16)) (String (hex_digit (n mod 16)) ""))).

Fixpoint contains_char (c : ascii) (s : string) : bool :=
  match s with
  | EmptyString => false
  | String c' s' => if decide (c' = c) then true else contains_char c s'
  end.

Fixpoint repr_chars (quote : ascii) (s : string) : string :=
  match s with
  | EmptyString => EmptyString
  | String c s' => repr_char quote c +:+ repr_chars quote s'
  end.

(** [repr] of a [str]: single quotes, unless the string holds a single
    quote and no double quote. *)
Definition repr_str (s : string) : string :=
  let quote :=
    if contains_char "'" s && negb (contains_char dquote s) then dquote else "'"%char in
  String quote (repr_chars quote s +:+ String quote "").

Fixpoint join (sep : string) (l : list string) : string :=
  match l with
  | [] => ""
  | [x] => x
  | x :: l' => x +:+ sep +:+ join sep l'
  end.

Fixpoint repr (v : pyval) : string :=
  match v with
  | PNone => "None"
  | PBool b => if b then "True" else "False"
  | PInt z => pretty z
  | PStr s => repr_str s
  | PList l => "[" +:+ join ", " (map repr l) +:+ "]"
  | PTuple l =>
      match l with
      | [x] => "(" +:+ repr x +:+ ",)"
      | _ => "(" +:+ join ", " (map repr l) +:+ ")"
      end
  | PDict d =>
      "{" +:+ join ", " (map (fun kv => match kv with
                                       | (k, x) => repr_str k +:+ ": " +:+ repr x
                                       end) d) +:+ "}"
  end.

(** [str(v)]: a string is itself, everything else prints as its [repr]. *)
Definition str (v : pyval) : string :=
  match v with
  | PStr s => s
  | _ => repr v
  end.

(** Truth value of an object, as [if v:] tests it. *)
Definition truthy (v : pyval) : bool :=
  match v with
  | PNone => false
  | PBool b => b
  | PInt z => negb (z =? 0)%Z
  | PStr s => negb (String.eqb s "")
  | PList l | PTuple l => match l with [] => false | _ => true end
  | PDict d => match d with [] => false | _ => true end
  end.

(* ===================================================================== *)
(** ** Header normalization (processor.py, lines 33 to 48) *)
(* ===================================================================== *)

(** One turn of the loop of [_transform_headers]. [existing.append(value)]
    changes the list that [normalized] holds under [header]; the list was
    put there by this call or came in as a value of [data]. *)
Definition _transform_headers_step
    (normalized : dict pyval) (item : string * pyval) : dict pyval :=
  let '(header, value) := item in
  let header := lower header in
  if bool_decide (header ∈ ["cookie"; "set-cookie"]) then normalized
  else
    match dict_get normalized header with
    | Some existing =>
        match existing with
        | PList l => dict_set header (PList (l ++ [value])) normalized
        | _ => dict_set header (PList [existing; value]) normalized
        end
    | None => dict_set header value normalized
    end.

Definition _transform_headers (data : dict pyval) : dict pyval :=
  fold_left _transform_headers_step data [].

(* ===================================================================== *)
(** ** Spans *)
(* ===================================================================== *)

(** A metric value: a Python [int] or [float]. The only float the code
    writes is the literal [1.0], the rational one. *)
Inductive number : Type :=
| Int (z : Z)
| Float (q : QArith_base.Q).

Definition one_point_zero : number := Float (QArith_base.Qmake 1 1).

(** Modelled from the spec: the class [Span] of [ddtrace.span] is not among
    the sources. The spec has it as a key/value store of string tags and
    numeric metrics with a type discriminator, and a retention/priority
    that a match forces to "always keep". *)
Record Span : Type := mkSpan {
  span_type : option string;
  meta : gmap string string;
  metrics : gmap string number;
  sampling_priority : option Z;
  error : Z
}.

(** Modelled from the spec: the constants [SpanTypes.WEB] of
    [ddtrace.ext], [ORIGIN_KEY] ("the origin tag") and
    [MANUAL_KEEP_KEY] ("retention/priority tag") of
    [ddtrace.constants], [USER_KEEP] of [ddtrace.ext.priority], and
    [STATUS_CODE] of [ddtrace.ext.http] and [TOOK] of
    [ddtrace.ext.opensearch] are not among the sources; they carry the
    names the tracer gives them. *)
Definition WEB : string := "web".
Definition ORIGIN_KEY : string := "_dd.origin".
Definition MANUAL_KEEP_KEY : string := "manual.keep".
Definition USER_KEEP : Z := 2.
Definition STATUS_CODE : string := "http.status_code".
Definition TOOK : string := "opensearch.took".

(** Code that reads and writes one span and may raise. A raised
    exception leaves the span as the code had made it by then. *)
Definition M (A : Type) : Type := Span -> result A * Span.

Definition ret {A : Type} (a : A) : M A := fun s => (Val a, s).

Definition bind {A B : Type} (m : M A) (f : A -> M B) : M B :=
  fun s =>
    match m s with
    | (Val a, s') => f a s'
    | (Exn e, s') => (Exn e, s')
    end.

Definition raise {A : Type} (e : exn) : M A := fun s => (Exn e, s).

(** The outcome of a call that does not touch the span. *)
Definition lift {A : Type} (r : result A) : M A := fun s => (r, s).

(** [try: body / except Exception: pass]. *)
Definition try_except_pass (body : M unit) : M unit :=
  fun s =>
    match body s with
    | (Exn e, s') => if is_Exception e then (Val tt, s') else (Exn e, s')
    | r => r
    end.

Declare Scope py_scope.
Delimit Scope py_scope with py.
Notation "x <- m ;; k" := (bind m (fun x => k))
  (at level 100, m at next level, k at level 200, right associativity) : py_scope.
Notation "m ;; k" := (bind m (fun _ => k))
  (at level 100, k at level 200, right associativity) : py_scope.
Open Scope py_scope.

(** Modelled from the spec: the methods of [Span] ([getTag], [setTag],
    [setMetric]). [set_tag] converts its value to a string ("list-valued
    headers are serialized as a single string representation before
    tagging"), and the retention key sets the priority instead of a tag. *)
Definition get_span_type : M (option string) := fun s => (Val (span_type s), s).

Definition get_tag (key : string) : M (option string) :=
  fun s => (Val (meta s !! key), s).

Definition _set_str_tag (key value : string) : M unit :=
  fun s => (Val tt, mkSpan (span_type s) (<[key := value]> (meta s)) (metrics s)
                           (sampling_priority s) (error s)).

Definition set_tag (key : string) (value : pyval) : M unit :=
  fun s =>
    if decide (key = MANUAL_KEEP_KEY)
    then (Val tt, mkSpan (span_type s) (meta s) (metrics s) (Some USER_KEEP) (error s))
    else (Val tt, mkSpan (span_type s) (<[key := str value]> (meta s)) (metrics s)
                         (sampling_priority s) (error s)).

Definition set_metric (key : string) (value : number) : M unit :=
  fun s => (Val tt, mkSpan (span_type s) (meta s) (<[key := value]> (metrics s))
                           (sampling_priority s) (error s)).

Definition set_error (e : Z) : M unit :=
  fun s => (Val tt, mkSpan (span_type s) (meta s) (metrics s) (sampling_priority s) e).

(** Modelled from the spec: [_normalize_tag_name] of
    [ddtrace.contrib.trace_utils] is not among the sources; a projected
    header is "named by a fixed [{kind}.headers.{name}] convention". *)
Definition _normalize_tag_name (kind name : string) : string :=
  kind +:+ ".headers." +:+ name.

(* ===================================================================== *)
(** ** The AppSec span processor (processor.py, lines 56 to 229) *)
(* ===================================================================== *)

Module _Addresses.
Definition SERVER_REQUEST_BODY := "server.request.body".
Definition SERVER_REQUEST_QUERY := "server.request.query".
Definition SERVER_REQUEST_HEADERS_NO_COOKIES := "server.request.headers.no_cookies".
Definition SERVER_REQUEST_URI_RAW := "server.request.uri.raw".
Definition SERVER_REQUEST_METHOD := "server.request.method".
Definition SERVER_REQUEST_PATH_PARAMS := "server.request.path_params".
Definition SERVER_REQUEST_COOKIES := "server.request.cookies".
Definition SERVER_RESPONSE_STATUS := "server.response.status".
Definition SERVER_RESPONSE_HEADERS_NO_COOKIES := "server.response.headers.no_cookies".
End _Addresses.

Definition _COLLECTED_REQUEST_HEADERS : gset string :=
  {[ "accept"; "accept-encoding"; "accept-language"; "content-encoding";
     "content-language"; "content-length"; "content-type"; "forwarded";
     "forwarded-for"; "host"; "true-client-ip"; "user-agent"; "via";
     "x-client-ip"; "x-cluster-client-ip"; "x-forwarded"; "x-forwarded-for";
     "x-real-ip" ]}.

Definition _COLLECTED_RESPONSE_HEADERS : gset string :=
  {[ "content-length"; "content-type"; "Content-Encoding"; "Content-Language" ]}.

(** [for k in headers: if k.lower() in to_collect: span.set_tag(...)]. *)
Fixpoint _set_headers (kind : string) (to_collect : gset string)
    (headers : dict pyval) : M unit :=
  match headers with
  | [] => ret tt
  | (k, v) :: headers' =>
      (if bool_decide (lower k ∈ to_collect)
       then set_tag (_normalize_tag_name kind k) v
       else ret tt) ;;
      _set_headers kind to_collect headers'
  end.

(** The engine, [ddtrace.appsec._ddwaf.DDWaf], at its interface: the
    addresses it requires and [run], which returns a serialized result,
    [None] when nothing matched, or raises. *)
Record DDWaf : Type := mkDDWaf {
  required_data : list string;
  run : dict pyval -> result (option string)
}.

Record AppSecSpanProcessor : Type := mkProcessor {
  rules : string;
  _ddwaf : option DDWaf;
  _addresses_to_keep : gset string
}.

Definition enabled (self : AppSecSpanProcessor) : bool :=
  match _ddwaf self with
  | Some _ => true
  | None => false
  end.

Definition _mark_needed (address : string) (self : AppSecSpanProcessor)
    : AppSecSpanProcessor :=
  mkProcessor (rules self) (_ddwaf self) ({[ address ]} ∪ _addresses_to_keep self).

Definition _is_needed (self : AppSecSpanProcessor) (address : string) : bool :=
  bool_decide (address ∈ _addresses_to_keep self).

(** What construction reads from the outside: the rule file at a path,
    opened and parsed ([open] and [json.load]), and the constructor of the
    engine. Each returns or raises. *)
Record World : Type := mkWorld {
  load_rules : string -> result pyval;
  new_DDWaf : pyval -> result DDWaf
}.

(** [__attrs_post_init__]. Every handler of the two [try] statements logs
    and raises the exception again, so the exception that leaves is the
    one that was raised; the log is not part of the model. *)
Definition __attrs_post_init__ (w : World) (self : AppSecSpanProcessor)
    : result AppSecSpanProcessor :=
  let with_engine (self : AppSecSpanProcessor) (waf : DDWaf) :=
    let self := fold_left (fun self address => _mark_needed address self)
                          (required_data waf) self in
    _mark_needed _Addresses.SERVER_REQUEST_HEADERS_NO_COOKIES self in
  match _ddwaf self with
  | None =>
      match load_rules w (rules self) with
      | Exn e => Exn e
      | Val rules_json =>
          match new_DDWaf w rules_json with
          | Exn e => Exn e
          | Val waf =>
              Val (with_engine (mkProcessor (rules self) (Some waf)
                                            (_addresses_to_keep self)) waf)
          end
      end
  | Some waf => Val (with_engine self waf)
  end.

Definition on_span_start (self : AppSecSpanProcessor) : M unit := ret tt.

(** The per-request store of [ddtrace.internal._context], at its
    interface: [get_item] returns the item stored under a key for the
    span, or [None]. *)
Definition get_item (ctx : gmap string pyval) (key : string) : option pyval :=
  match ctx !! key with
  | Some PNone => None
  | o => o
  end.

(** A call of [_transform_headers] on an object of the store: [data.items()]
    raises [AttributeError] on an object that is not a [dict]. *)
Definition call_transform_headers (data : pyval) : result (dict pyval) :=
  match data with
  | PDict d => Val (_transform_headers d)
  | _ => Exn AttributeError
  end.

(** [if self._is_needed(address): item = get_item(key); if item is not
    None: data[address] = item]. *)
Definition collect (self : AppSecSpanProcessor) (ctx : gmap string pyval)
    (address key : string) (data : dict pyval) : dict pyval :=
  if _is_needed self address then
    match get_item ctx key with
    | Some item => dict_set address item data
    | None => data
    end
  else data.

(** ['{"triggers":%s}' % (res,)]. *)
Definition triggers (res : string) : string :=
  "{" +:+ String dquote "triggers" +:+ String dquote ":" +:+ res +:+ "}".

(** [headers = get_item(key); if headers is not None: headers =
    _transform_headers(headers)]. *)
Definition headers_item (ctx : gmap string pyval) (key : string)
    : result (option (dict pyval)) :=
  match get_item ctx key with
  | Some raw =>
      match call_transform_headers raw with
      | Val h => Val (Some h)
      | Exn e => Exn e
      end
  | None => Val None
  end.

(** Lines 171 to 212 of [on_span_finish]: the data for the engine, and the
    normalized request and response headers, which are kept for the
    tags. Nothing here touches the span. The request headers are
    normalized a second time on their way into [data]. *)
Definition extract (self : AppSecSpanProcessor) (ctx : gmap string pyval)
    : result (dict pyval * option (dict pyval) * option (dict pyval)) :=
  let data : dict pyval := [] in
  let data := collect self ctx _Addresses.SERVER_REQUEST_QUERY "http.request.query" data in
  match headers_item ctx "http.request.headers" with
  | Exn e => Exn e
  | Val request_headers =>
  let data :=
    match request_headers with
    | Some h =>
        if _is_needed self _Addresses.SERVER_REQUEST_HEADERS_NO_COOKIES
        then dict_set _Addresses.SERVER_REQUEST_HEADERS_NO_COOKIES
                      (PDict (_transform_headers h)) data
        else data
    | None => data
    end in
  let data := collect self ctx _Addresses.SERVER_REQUEST_URI_RAW "http.request.uri" data in
  let data := collect self ctx _Addresses.SERVER_REQUEST_METHOD "http.request.method" data in
  let data := collect self ctx _Addresses.SERVER_REQUEST_PATH_PARAMS "http.request.path_params" data in
  let data := collect self ctx _Addresses.SERVER_REQUEST_COOKIES "http.request.cookies" data in
  let data := collect self ctx _Addresses.SERVER_RESPONSE_STATUS "http.response.status" data in
  match headers_item ctx "http.response.headers" with
  | Exn e => Exn e
  | Val response_headers =>
  let data :=
    match response_headers with
    | Some h =>
        if _is_needed self _Addresses.SERVER_RESPONSE_HEADERS_NO_COOKIES
        then dict_set _Addresses.SERVER_RESPONSE_HEADERS_NO_COOKIES (PDict h) data
        else data
    | None => data
    end in
  Val (data, request_headers, response_headers)
  end
  end.

(** [self._ddwaf.run(data)]; [None] has no attribute [run]. *)
Definition run_engine (self : AppSecSpanProcessor) (data : dict pyval)
    : result (option string) :=
  match _ddwaf self with
  | Some waf => run waf data
  | None => Exn AttributeError
  end.

(** Lines 216 to 229 of [on_span_finish]: what a result of the engine
    writes to the span. *)
Definition apply_result (res : option string)
    (request_headers response_headers : option (dict pyval)) : M unit :=
  match res with
  | Some res =>
      match request_headers with
      | Some h => _set_headers "request" _COLLECTED_REQUEST_HEADERS h
      | None => ret tt
      end ;;
      match response_headers with
      | Some h => _set_headers "response" _COLLECTED_RESPONSE_HEADERS h
      | None => ret tt
      end ;;
      _set_str_tag "appsec.event" "true" ;;
      _set_str_tag "_dd.appsec.json" (triggers res) ;;
      set_tag MANUAL_KEEP_KEY PNone ;;
      origin <- get_tag ORIGIN_KEY ;;
      match origin with
      | None => _set_str_tag ORIGIN_KEY "appsec"
      | Some _ => ret tt
      end
  | None => ret tt
  end.

Definition on_span_finish (self : AppSecSpanProcessor) (ctx : gmap string pyval)
    : M unit :=
  ty <- get_span_type ;;
  if negb (bool_decide (ty = Some WEB)) then ret tt else
  set_metric "_dd.appsec.enabled" one_point_zero ;;
  _set_str_tag "_dd.runtime_family" "python" ;;
  extracted <- lift (extract self ctx) ;;
  let '(data, request_headers, response_headers) := extracted in
  res <- lift (run_engine self data) ;;
  apply_result res request_headers response_headers.

(* ===================================================================== *)
(** ** The OpenSearch wrapper (patch.py, lines 98 to 124) *)
(* ===================================================================== *)

(** [data.get(key)]: of the values of [pyval] only a [dict] has [get]. *)
Definition py_get (data : pyval) (key : string) : result pyval :=
  match data with
  | PDict d => Val (default PNone (dict_get d key))
  | _ => Exn AttributeError
  end.

(** White space as [int()] strips it. *)
Definition is_space (c : ascii) : bool :=
  let n := N_of_ascii c in
  ((9 <=? n) && (n <=? 13) || (28 <=? n) && (n <=? 32) || (n =? 133) || (n =? 160))%N.

Fixpoint lstrip (s : string) : string :=
  match s with
  | String c s' => if is_space c then lstrip s' else s
  | EmptyString => EmptyString
  end.

Fixpoint rstrip (s : string) : string :=
  match s with
  | String c s' =>
      match rstrip s' with
      | EmptyString => if is_space c then EmptyString else String c EmptyString
      | t => String c t
      end
  | EmptyString => EmptyString
  end.

(** Decimal digits, a single underscore allowed between two of them. *)
Fixpoint int_digits (s : string) (acc : Z) (after_digit : bool) : option Z :=
  match s with
  | EmptyString => if after_digit then Some acc else None
  | String c s' =>
      let n := N_of_ascii c in
      if ((48 <=? n) && (n <=? 57))%N
      then int_digits s' (10 * acc + Z.of_N (n - 48)) true
      else if decide (c = "_"%char)
           then if after_digit then int_digits s' acc false else None
           else None
  end.

Definition int_of_str (s : string) : option Z :=
  match rstrip (lstrip s) with
  | String "-" t => Z.opp <$> int_digits t 0 false
  | String "+" t => int_digits t 0 false
  | t => int_digits t 0 false
  end.

(** [int(v)]. *)
Definition py_int (v : pyval) : result Z :=
  match v with
  | PInt z => Val z
  | PBool b => Val (if b then 1 else 0)%Z
  | PStr s => match int_of_str s with Some z => Val z | None => Exn ValueError end
  | PNone | PList _ | PTuple _ | PDict _ => Exn TypeError
  end.

(** The body of the second [try] statement, after [status, data] have
    been bound: the optional metadata of the response. *)
Definition extract_took (data : pyval) : M unit :=
  took <- lift (py_get data "took") ;;
  if truthy took
  then n <- lift (py_int took) ;; set_metric TOOK (Int n)
  else ret tt.

(** [status, data = result] when [result] is a pair, [data = result] and
    [status = None] otherwise; neither can raise. *)
Definition status_and_data (result : pyval) : pyval * pyval :=
  match result with
  | PTuple [status; data] => (status, data)
  | _ => (PNone, result)
  end.

(** [_perform_request] from the wrapped call on (lines 98 to 124), for a
    sampled span of an enabled pin: [func] is the outcome of
    the call of the wrapped [func] on the arguments, and the span is as
    lines 69 to 96 left it. *)
Definition _perform_request (func : result pyval) : M pyval :=
  result <- match func with
            | Val result => ret result
            | Exn (TransportError status_code) =>
                set_tag STATUS_CODE (default (PInt 500) status_code) ;;
                set_error 1 ;;
                raise (TransportError status_code)
            | Exn e => raise e
            end ;;
  let '(status, data) := status_and_data result in
  try_except_pass (extract_took data) ;;
  (if truthy status then set_tag STATUS_CODE status else ret tt) ;;
  ret result.

(* ===================================================================== *)
(** ** Patching the OpenSearch modules (patch.py, lines 26 to 60) *)
(* ===================================================================== *)

(** An OpenSearch module object as [_patch] and [_unpatch] see it: the
    attribute [_datadog_patch], which a module may lack, and what has
    been done to its transport, counted in calls: the wrappings of
    [Transport.perform_request] by [_w], its unwrappings by [_u], and the
    pins put onto [Transport]. *)
Record os_module : Type := mkModule {
  _datadog_patch : option bool;
  wrap_calls : nat;
  unwrap_calls : nat;
  pin_calls : nat
}.

(** [getattr(opensearch, "_datadog_patch", False)]. *)
Definition patched (opensearch : os_module) : bool :=
  default false (_datadog_patch opensearch).

Definition _patch (opensearch : os_module) : os_module :=
  if patched opensearch then opensearch
  else mkModule (Some true) (S (wrap_calls opensearch)) (unwrap_calls opensearch)
                (S (pin_calls opensearch)).

Definition _unpatch (opensearch : os_module) : os_module :=
  if patched opensearch
  then mkModule (Some false) (wrap_calls opensearch) (S (unwrap_calls opensearch))
                (pin_calls opensearch)
  else opensearch.

(** What [import_module] finds under a name: a module object, or an
    exception other than [ImportError] that the import raises. A name
    with no entry raises [ImportError]. *)
Inductive import_entry : Type :=
| Importable (opensearch : os_module)
| Broken (e : exn).

(** [for opensearch in _es_modules(): body(opensearch)] over the module
    names that are left: the generator imports a name when the loop asks
    for the next module, passes over a name whose import raises
    [ImportError], and lets any other exception out. The module objects
    are those of the import table, which [body] changes in place. *)
Fixpoint for_es_modules (body : os_module -> os_module) (module_names : list string)
    (modules : gmap string import_entry) : result unit * gmap string import_entry :=
  match module_names with
  | [] => (Val tt, modules)
  | module_name :: module_names' =>
      match modules !! module_name with
      | Some (Importable opensearch) =>
          for_es_modules body module_names'
            (<[module_name := Importable (body opensearch)]> modules)
      | Some (Broken e) => (Exn e, modules)
      | None => for_es_modules body module_names' modules
      end
  end.

Definition module_names : list string := ["opensearch-py"; "opensearchpy"].

Definition patch (modules : gmap string import_entry)
    : result unit * gmap string import_entry :=
  for_es_modules _patch module_names modules.

Definition unpatch (modules : gmap string import_entry)
    : result unit * gmap string import_entry :=
  for_es_modules _unpatch module_names modules.

(* ===================================================================== *)
(** ** Random span attributes (benchmarks/encoder/utils.py, lines 23 to 28) *)
(* ===================================================================== *)

(** Code that draws from the random generator and may raise: the state is
    the number of draws made so far. *)
Definition R (A : Type) : Type := nat -> result A * nat.

Section Random.

(** The generator of the [random] module: [randbelow i n] is what its
    draw number [i] returns when asked for a number below [n]. *)
Variable randbelow : nat -> nat -> nat.

(** The order in which [list(set(l))] lists the distinct elements of
    [l], which the language leaves open. *)
Variable set_order : list string -> list string.

(** [random.choice(seq)]: an empty sequence raises [IndexError] before
    anything is drawn. *)
Definition random_choice {A : Type} (seq : list A) : R A :=
  fun i =>
    match seq with
    | [] => (Exn (OtherException "IndexError"), i)
    | _ =>
        match seq !! randbelow i (length seq) with
        | Some x => (Val x, S i)
        | None => (Exn (OtherException "IndexError"), S i)
        end
    end.

(** [random.choice(chars) for _ in range(n)], drawn in order. *)
Fixpoint choices (n : nat) (chars : list ascii) : R (list ascii) :=
  fun i =>
    match n with
    | 0 => (Val [], i)
    | S n' =>
        match random_choice chars i with
        | (Val c, i') =>
            match choices n' chars i' with
            | (Val cs, i'') => (Val (c :: cs), i'')
            | (Exn e, i'') => (Exn e, i'')
            end
        | (Exn e, i') => (Exn e, i')
        end
    end.

(** [string.ascii_uppercase + string.digits]. *)
Definition uppercase_and_digits : string := "ABCDEFGHIJKLMNOPQRSTUVWXYZ0123456789".

Definition _rands (size : Z) (chars : string) : R string :=
  fun i =>
    match choices (Z.to_nat size) (list_ascii_of_string chars) i with
    | (Val cs, i') => (Val (string_of_list_ascii cs), i')
    | (Exn e, i') => (Exn e, i')
    end.

(** [[_rands(size=size) for _ in range(n)]]. *)
Fixpoint rands_list (n : nat) (size : Z) : R (list string) :=
  fun i =>
    match n with
    | 0 => (Val [], i)
    | S n' =>
        match _rands size uppercase_and_digits i with
        | (Val s, i') =>
            match rands_list n' size i' with
            | (Val l, i'') => (Val (s :: l), i'')
            | (Exn e, i'') => (Exn e, i'')
            end
        | (Exn e, i') => (Exn e, i')
        end
    end.

Definition _random_values (k size : Z) : R (list string) :=
  fun i =>
    match rands_list (Z.to_nat k) size i with
    | (Val l, i') => (Val (set_order l), i')
    | (Exn e, i') => (Exn e, i')
    end.

End Random.

(* ===================================================================== *)
(** ** Reading the claims *)
(* ===================================================================== *)

(** A raw header map, [Dict[str, str]], as [_transform_headers] sees it. *)
Definition of_raw (h : dict string) : dict pyval :=
  map (fun kv => (kv.1, PStr kv.2)) h.

(** The values a raw header map gives to the entries whose lower-cased
    name is [name], in their order of appearance. *)
Definition values_of (name : string) (h : dict string) : list string :=
  map snd (filter (fun kv => lower kv.1 = name) h).

(** The entries of a map whose lower-cased name is [name]. *)
Definition entries_of (name : string) (d : dict pyval) : dict pyval :=
  filter (fun kv => lower kv.1 = name) d.

(** A name that normalization redacts. *)
Definition redacted (name : string) : Prop :=
  name = "cookie" \/ name = "set-cookie".

(** What normalization stores for a name that occurred with the values
    [vs]: nothing, the value, or the list of the values. *)
Definition merged (vs : list string) : option pyval :=
  match vs with
  | [] => None
  | [v] => Some (PStr v)
  | _ => Some (PList (map PStr vs))
  end.

(** A key as normalization writes it: lower-cased and not redacted. *)
Definition key_ok (k : string) : Prop :=
  lower k = k /\ ~ redacted k.

(** The span once [on_span_finish] has written the baseline telemetry:
    the detection-enabled metric and the runtime-family tag. *)
Definition baseline (s : Span) : Span :=
  mkSpan (span_type s) (<["_dd.runtime_family" := "python"]> (meta s))
         (<["_dd.appsec.enabled" := one_point_zero]> (metrics s))
         (sampling_priority s) (error s).

(** A tag name that header projection can write. *)
Definition header_tag (key : string) : Prop :=
  exists kind name : string,
    (kind = "request" \/ kind = "response") /\ key = _normalize_tag_name kind name.

(** What header projection leaves alone: the type, the metrics, the
    retention, the error flag and every tag that is not a header tag. *)
Definition header_frame (s s' : Span) : Prop :=
  span_type s' = span_type s /\ metrics s' = metrics s /\
  sampling_priority s' = sampling_priority s /\ error s' = error s /\
  forall key : string, ~ header_tag key -> meta s' !! key = meta s !! key.

(** A WEB span that carries nothing yet, and a processor without an
    engine. *)
Definition fresh_web_span : Span := mkSpan (Some WEB) ∅ ∅ None 0.

Definition no_engine : AppSecSpanProcessor := mkProcessor "rules.json" None ∅.

(** An engine that answers every request with the same result, and a
    constructed processor that holds it. *)
Definition matching_waf : DDWaf :=
  mkDDWaf [] (fun _ => Val (Some "[{'rule': 'R1'}]")).

Definition matching_processor : AppSecSpanProcessor :=
  mkProcessor "rules.json" (Some matching_waf)
              {[ _Addresses.SERVER_REQUEST_HEADERS_NO_COOKIES ]}.

Definition silent_processor : AppSecSpanProcessor :=
  mkProcessor "rules.json" (Some (mkDDWaf [] (fun _ => Val None)))
              {[ _Addresses.SERVER_REQUEST_HEADERS_NO_COOKIES ]}.

Definition failing_processor : AppSecSpanProcessor :=
  mkProcessor "rules.json" (Some (mkDDWaf [] (fun _ => Exn (OtherException "RuntimeError"))))
              {[ _Addresses.SERVER_REQUEST_HEADERS_NO_COOKIES ]}.

(** A store whose response carries the four headers of the response
    allow-list of the spec. *)
Definition encoded_response : gmap string pyval :=
  {[ "http.response.headers" :=
       PDict [("Content-Length", PStr "42"); ("Content-Type", PStr "text/html");
              ("Content-Encoding", PStr "gzip"); ("Content-Language", PStr "en")] ]}.

(** A WEB span whose origin was set upstream. *)
Definition synthetic_web_span : Span :=
  mkSpan (Some WEB) {[ ORIGIN_KEY := "synthetics" ]} ∅ None 0.

(** An OpenSearch span as the wrapper has tagged it before the call, and a
    response, status and body, whose [took] is not a number. *)
Definition query_span : Span :=
  mkSpan (Some "opensearch")
         {[ "opensearch.method" := "GET"; "opensearch.url" := "/books/_search" ]}
         ∅ None 0.

Definition odd_response : pyval :=
  PTuple [PInt 200; PDict [("took", PStr "soon"); ("hits", PList [])]].

(** The status tag that the wrapper writes once the metadata is done
    with. *)
Definition tag_status (status : pyval) : M unit :=
  if truthy status then set_tag STATUS_CODE status else ret tt.

(** A world where the rule file parses and the engine requires the
    request method, and a processor about to be constructed in it. *)
Definition example_waf : DDWaf :=
  mkDDWaf [_Addresses.SERVER_REQUEST_METHOD] (fun _ => Val None).

Definition example_world : World :=
  mkWorld (fun _ => Val (PDict [])) (fun _ => Val example_waf).

Definition example_constructed : AppSecSpanProcessor :=
  mkProcessor "rules.json" (Some example_waf)
    ({[ _Addresses.SERVER_REQUEST_HEADERS_NO_COOKIES ]} ∪
     ({[ _Addresses.SERVER_REQUEST_METHOD ]} ∪ ∅)).

(** The addresses that [on_span_finish] copies from the store as they
    are, each with the key it is read under. *)
Definition copied_addresses : list (string * string) :=
  [ (_Addresses.SERVER_REQUEST_QUERY, "http.request.query");
    (_Addresses.SERVER_REQUEST_URI_RAW, "http.request.uri");
    (_Addresses.SERVER_REQUEST_METHOD, "http.request.method");
    (_Addresses.SERVER_REQUEST_PATH_PARAMS, "http.request.path_params");
    (_Addresses.SERVER_REQUEST_COOKIES, "http.request.cookies");
    (_Addresses.SERVER_RESPONSE_STATUS, "http.response.status") ].

(** An item of the store that is there and is not a [dict]. *)
Definition not_a_dict (ctx : gmap string pyval) (key : string) : Prop :=
  exists v, get_item ctx key = Some v /\ forall d, v <> PDict d.

(** The normalized headers of the store under [key], for a store whose
    item is a [dict] or is missing. *)
Definition normalized_item (ctx : gmap string pyval) (key : string)
    : option (dict pyval) :=
  match get_item ctx key with
  | Some (PDict d) => Some (_transform_headers d)
  | _ => None
  end.

(** [data[address] = headers] for headers that are there and needed. *)
Definition with_headers (self : AppSecSpanProcessor) (address : string)
    (headers : option (dict pyval)) (data : dict pyval) : dict pyval :=
  match headers with
  | Some h => if _is_needed self address then dict_set address (PDict h) data else data
  | None => data
  end.

(** A store as in the first scenario of the spec, and a processor whose
    engine requires the request method. *)
Definition scenario_store : gmap string pyval :=
  {[ "http.request.method" := PStr "GET";
     "http.request.headers" := PDict [("Cookie", PStr "a=b"); ("User-Agent", PStr "x")] ]}.

Definition method_processor : AppSecSpanProcessor :=
  mkProcessor "rules.json" (Some matching_waf)
              {[ _Addresses.SERVER_REQUEST_METHOD;
                 _Addresses.SERVER_REQUEST_HEADERS_NO_COOKIES ]}.

(** A store whose request headers are a string. *)
Definition broken_store : gmap string pyval :=
  {[ "http.request.headers" := PStr "Host: h" ]}.

(** The tags that a match writes besides the projected headers and the
    baseline. *)
Definition match_tags : list string :=
  ["appsec.event"; "_dd.appsec.json"; ORIGIN_KEY].

(** A tag name that may be written for a header under the allow-list
    test of [_set_headers]. *)
Definition projected (kind : string) (to_collect : gset string) (key : string) : Prop :=
  exists k, lower k ∈ to_collect /\ key = _normalize_tag_name kind k.

(** A WEB span that already carries a tag named like a cookie header. *)
Definition cookie_tagged_span : Span :=
  mkSpan (Some WEB) {[ "request.headers.cookie" := "kept" ]} ∅ None 0.

(** A store with a repeated request header and a cookie. *)
Definition forwarded_store : gmap string pyval :=
  {[ "http.request.headers" :=
       PDict [("X-Forwarded-For", PStr "a"); ("Cookie", PStr "k=v");
              ("x-forwarded-for", PStr "b"); ("Host", PStr "h")] ]}.


(** A response of a transport that returns status and body, the search
    having taken 12 milliseconds, and one whose search took none. *)
Definition timed_response : pyval :=
  PTuple [PInt 200; PDict [("took", PInt 12); ("timed_out", PBool false)]].

Definition instant_response : pyval :=
  PDict [("took", PInt 0); ("timed_out", PBool false)].

(** A call of the integration on a module. *)
Inductive patch_call : Type := Patch | Unpatch.

Definition run_patch_call (c : patch_call) (opensearch : os_module) : os_module :=
  match c with
  | Patch => _patch opensearch
  | Unpatch => _unpatch opensearch
  end.

(** The calls of a list made on a module, the first of the list first. *)
Definition run_patch_calls (cs : list patch_call) (opensearch : os_module) : os_module :=
  fold_left (fun m c => run_patch_call c m) cs opensearch.

(** The wrappings of a module that have not been taken off. *)
Definition wrapped_once_iff_patched (opensearch : os_module) : Prop :=
  wrap_calls opensearch
  = unwrap_calls opensearch + (if patched opensearch then 1 else 0).

(** A module as the import system hands it out the first time, and an
    import table that has it. *)
Definition fresh_module : os_module := mkModule None 0 0 0.

Definition installed : gmap string import_entry :=
  {[ "opensearchpy" := Importable fresh_module ]}.

(** A generator that counts up, and the order of first appearance. *)
Definition counting (i n : nat) : nat := i mod n.

(** A string drawn from an alphabet: as long as asked for, and made of
    its characters. *)
Definition drawn_from (chars : string) (size : Z) (s : string) : Prop :=
  String.length s = Z.to_nat size /\
  forall c, c ∈ list_ascii_of_string s -> c ∈ list_ascii_of_string chars.

(* ===================================================================== *)
(** ** Lower-casing and dictionaries *)
(* ===================================================================== *)

Lemma lower_ascii_idem (c : ascii) : lower_ascii (lower_ascii c) = lower_ascii c.
Proof. destruct c as [[] [] [] [] [] [] [] []]; reflexivity. Qed.

Lemma lower_idem (s : string) : lower (lower s) = lower s.
Proof.
  induction s as [|c s IH]; simpl; [reflexivity|].
  now rewrite lower_ascii_idem, IH.
Qed.

Section Dict.
Context {V : Type}.
Implicit Types (d : dict V) (k : string) (v : V).

Lemma dict_get_None d k : dict_get d k = None <-> k ∉ dict_keys d.
Proof.
  induction d as [|[k' v'] d IH]; simpl.
  - split; [intros _; apply not_elem_of_nil | reflexivity].
  - destruct (decide (k' = k)) as [->|Hne].
    + split; [discriminate | intros H; exfalso; apply H; left].
    + rewrite IH, not_elem_of_cons. split; [intros H; split; congruence | tauto].
Qed.

Lemma dict_get_Some_in d k v : dict_get d k = Some v -> k ∈ dict_keys d.
Proof.
  intros H. destruct (decide (k ∈ dict_keys d)) as [|Hn]; [assumption|].
  apply dict_get_None in Hn. congruence.
Qed.

Lemma dict_set_fresh d k v : k ∉ dict_keys d -> dict_set k v d = d ++ [(k, v)].
Proof.
  induction d as [|[k' v'] d IH]; simpl; [reflexivity|].
  rewrite not_elem_of_cons. intros [Hne Hd].
  destruct (decide (k' = k)); [congruence|]. now rewrite IH.
Qed.

Lemma dict_keys_set_in d k v : k ∈ dict_keys d -> dict_keys (dict_set k v d) = dict_keys d.
Proof.
  induction d as [|[k' v'] d IH]; simpl.
  - intros H. now apply elem_of_nil in H.
  - intros H. destruct (decide (k' = k)) as [->|Hne]; simpl; [reflexivity|].
    apply elem_of_cons in H as [->|H]; [congruence|]. now rewrite IH.
Qed.

Lemma dict_keys_app d1 d2 : dict_keys (d1 ++ d2) = dict_keys d1 ++ dict_keys d2.
Proof. apply map_app. Qed.

Lemma dict_get_set d k k' v :
  dict_get (dict_set k v d) k' = if decide (k = k') then Some v else dict_get d k'.
Proof.
  induction d as [|[k0 v0] d IH]; simpl.
  - destruct (decide (k = k')); reflexivity.
  - destruct (decide (k0 = k)) as [->|Hne]; simpl.
    + destruct (decide (k = k')); reflexivity.
    + destruct (decide (k0 = k')) as [->|Hne'].
      * destruct (decide (k = k')); [congruence | reflexivity].
      * apply IH.
Qed.

(** A write keeps the keys distinct and adds at most the key written. *)
Lemma dict_set_keys_ok (P : string -> Prop) d k v :
  NoDup (dict_keys d) -> Forall P (dict_keys d) -> P k ->
  NoDup (dict_keys (dict_set k v d)) /\ Forall P (dict_keys (dict_set k v d)).
Proof.
  intros Hnd Hall Hk. destruct (decide (k ∈ dict_keys d)) as [Hin|Hout].
  - rewrite dict_keys_set_in by assumption. now split.
  - rewrite dict_set_fresh, dict_keys_app by assumption. simpl. split.
    + apply NoDup_app. split; [assumption|]. split.
      * intros x Hx Hx'. apply list_elem_of_singleton in Hx'. now subst.
      * apply NoDup_singleton.
    + apply Forall_app. split; [assumption|]. now constructor.
Qed.

Lemma filter_key_absent d k :
  k ∉ dict_keys d -> filter (fun kv : string * V => kv.1 = k) d = [].
Proof.
  induction d as [|[k' v'] d IH]; simpl; [reflexivity|].
  rewrite not_elem_of_cons. intros [Hne Hd].
  rewrite filter_cons_False by (simpl; congruence). now apply IH.
Qed.

(** With distinct keys, the entries under a key are the one [dict_get]
    finds. *)
Lemma filter_key_lookup d k v :
  NoDup (dict_keys d) -> dict_get d k = Some v ->
  filter (fun kv : string * V => kv.1 = k) d = [(k, v)].
Proof.
  induction d as [|[k' v'] d IH]; simpl; [discriminate|].
  intros Hnd Hget. apply NoDup_cons in Hnd as [Hk' Hnd].
  destruct (decide (k' = k)) as [->|Hne].
  - injection Hget as ->. rewrite filter_cons_True by reflexivity.
    now rewrite filter_key_absent.
  - rewrite filter_cons_False by (simpl; congruence). now apply IH.
Qed.
End Dict.

(* ===================================================================== *)
(** ** Header normalization *)
(* ===================================================================== *)

Lemma redacted_test (k : string) :
  bool_decide (k ∈ ["cookie"; "set-cookie"]) = true <-> redacted k.
Proof.
  rewrite bool_decide_eq_true. unfold redacted.
  rewrite !elem_of_cons, elem_of_nil. tauto.
Qed.

(** The loop keeps the keys of [normalized] distinct, lower-cased and
    free of the redacted names. *)
Lemma _transform_headers_step_ok (normalized : dict pyval) (item : string * pyval) :
  NoDup (dict_keys normalized) -> Forall key_ok (dict_keys normalized) ->
  NoDup (dict_keys (_transform_headers_step normalized item)) /\
  Forall key_ok (dict_keys (_transform_headers_step normalized item)).
Proof.
  intros Hnd Hok. destruct item as [header value]. unfold _transform_headers_step.
  destruct (bool_decide (lower header ∈ ["cookie"; "set-cookie"])) eqn:Hred;
    [now split|].
  assert (Hk : key_ok (lower header)).
  { split; [apply lower_idem|]. intros H. apply redacted_test in H. congruence. }
  destruct (dict_get normalized (lower header)) as [[]|];
    now apply dict_set_keys_ok.
Qed.

Lemma fold_transform_ok (data normalized : dict pyval) :
  NoDup (dict_keys normalized) -> Forall key_ok (dict_keys normalized) ->
  NoDup (dict_keys (fold_left _transform_headers_step data normalized)) /\
  Forall key_ok (dict_keys (fold_left _transform_headers_step data normalized)).
Proof.
  revert normalized. induction data as [|item data IH]; intros normalized Hnd Hok.
  - now split.
  - simpl. destruct (_transform_headers_step_ok normalized item Hnd Hok).
    now apply IH.
Qed.

Lemma _transform_headers_ok (data : dict pyval) :
  NoDup (dict_keys (_transform_headers data)) /\
  Forall key_ok (dict_keys (_transform_headers data)).
Proof. apply fold_transform_ok; [apply NoDup_nil_2 | constructor]. Qed.

(** On a map whose keys are distinct, lower-cased and not redacted, and
    none of which is in [normalized] yet, the loop only appends. *)
Lemma fold_transform_append (data normalized : dict pyval) :
  NoDup (dict_keys normalized ++ dict_keys data) ->
  Forall key_ok (dict_keys data) ->
  fold_left _transform_headers_step data normalized = normalized ++ data.
Proof.
  revert normalized. induction data as [|[k v] data IH]; intros normalized Hnd Hok.
  - simpl. now rewrite app_nil_r.
  - simpl in *. apply Forall_cons in Hok as [[Hlow Hred] Hok].
    assert (Hfresh : k ∉ dict_keys normalized).
    { apply NoDup_app in Hnd as (_ & Hdisj & _). intros Hin.
      apply (Hdisj k Hin). left. }
    rewrite Hlow.
    destruct (bool_decide (k ∈ ["cookie"; "set-cookie"])) eqn:Htest.
    { apply redacted_test in Htest. contradiction. }
    rewrite (proj2 (dict_get_None normalized k) Hfresh).
    rewrite dict_set_fresh by assumption.
    rewrite IH; [now rewrite <- app_assoc | | assumption].
    rewrite dict_keys_app. simpl. now rewrite <- app_assoc.
Qed.

(** What the loop has stored for a name after a prefix of a raw map. *)
Lemma _transform_headers_lookup (h : dict string) (name : string) :
  ~ redacted name ->
  dict_get (_transform_headers (of_raw h)) name = merged (values_of name h).
Proof.
  intros Hname. induction h as [|[k v] h IH] using rev_ind; [reflexivity|].
  unfold _transform_headers, of_raw, values_of in *.
  rewrite map_app, fold_left_app, filter_app, map_app. simpl.
  set (normalized := fold_left _transform_headers_step _ []) in *.
  destruct (bool_decide (lower k ∈ ["cookie"; "set-cookie"])) eqn:Htest.
  - apply redacted_test in Htest.
    rewrite filter_cons_False, filter_nil, app_nil_r; [assumption|].
    simpl. intros <-. contradiction.
  - destruct (decide (lower k = name)) as [Heq|Hne].
    + rewrite filter_cons_True, filter_nil by assumption. simpl.
      rewrite Heq, IH.
      destruct (map snd (filter _ h)) as [|v1 [|v2 vs]] eqn:Hvs; simpl.
      * rewrite dict_get_set. now destruct (decide (name = name)).
      * rewrite dict_get_set. now destruct (decide (name = name)).
      * rewrite dict_get_set. destruct (decide (name = name)); [|congruence].
        now rewrite map_app.
    + rewrite filter_cons_False, filter_nil, app_nil_r by assumption.
      rewrite <- IH.
      destruct (dict_get normalized (lower k)) as [[]|];
        rewrite dict_get_set; now destruct (decide (lower k = name)).
Qed.

(** On lower-cased keys, selecting by lower-cased name is selecting by
    name. *)
Lemma filter_lower_keys (d : dict pyval) (name : string) :
  Forall key_ok (dict_keys d) ->
  filter (fun kv : string * pyval => lower kv.1 = name) d
  = filter (fun kv : string * pyval => kv.1 = name) d.
Proof.
  induction d as [|[k v] d IH]; simpl; intros Hok; [reflexivity|].
  apply Forall_cons in Hok as [[Hlow _] Hok].
  rewrite !filter_cons. simpl. rewrite Hlow, IH by assumption. reflexivity.
Qed.

(** C1: the output of header normalization holds no key that is ["cookie"]
    or ["set-cookie"] after lower-casing, whatever the input map. *)
Theorem transform_headers_redacts (data : dict pyval) :
  Forall (fun k => lower k <> "cookie" /\ lower k <> "set-cookie")
         (dict_keys (_transform_headers data)).
Proof.
  destruct (_transform_headers_ok data) as [_ Hok].
  eapply Forall_impl; [exact Hok|].
  intros k [Hlow Hred]. rewrite Hlow. unfold redacted in Hred. tauto.
Qed.

(** C6: header normalization is idempotent: normalizing a normalized map
    gives the same map. *)
Theorem transform_headers_idempotent (data : dict pyval) :
  _transform_headers (_transform_headers data) = _transform_headers data.
Proof.
  destruct (_transform_headers_ok data) as [Hnd Hok].
  unfold _transform_headers at 1. now rewrite fold_transform_append.
Qed.

(** C8, as the code has it: in a raw header map where a name that is not
    redacted occurs twice or more after lower-casing, the normalized map
    has exactly one entry for the name, and its value is the list of all
    the values in their order of appearance. *)
Theorem transform_headers_merges (h : dict string) (name : string) :
  ~ redacted name ->
  2 <= length (values_of name h) ->
  entries_of name (_transform_headers (of_raw h))
  = [(name, PList (map PStr (values_of name h)))].
Proof.
  intros Hname Hlen.
  destruct (_transform_headers_ok (of_raw h)) as [Hnd Hok].
  pose proof (_transform_headers_lookup h name Hname) as Hget.
  destruct (values_of name h) as [|v1 [|v2 vs]] eqn:Hvs; simpl in Hlen; [lia|lia|].
  simpl merged in Hget. unfold entries_of.
  transitivity (filter (fun kv : string * pyval => kv.1 = name)
                       (_transform_headers (of_raw h)));
    [|exact (filter_key_lookup _ _ _ Hnd Hget)].
  now apply filter_lower_keys.
Qed.

(** The theorem at a map that holds one name in three casings. *)
Lemma transform_headers_merges_witness :
  ~ redacted "x-forwarded-for" /\
  2 <= length (values_of "x-forwarded-for"
                 [("X-Forwarded-For", "a"); ("Host", "h");
                  ("x-forwarded-for", "b"); ("X-FORWARDED-FOR", "c")]) /\
  entries_of "x-forwarded-for"
    (_transform_headers (of_raw [("X-Forwarded-For", "a"); ("Host", "h");
                                 ("x-forwarded-for", "b"); ("X-FORWARDED-FOR", "c")]))
  = [("x-forwarded-for", PList [PStr "a"; PStr "b"; PStr "c"])].
Proof.
  assert (Hname : ~ redacted "x-forwarded-for").
  { unfold redacted. intros [H|H]; discriminate H. }
  assert (Hlen : 2 <= length (values_of "x-forwarded-for"
                 [("X-Forwarded-For", "a"); ("Host", "h");
                  ("x-forwarded-for", "b"); ("X-FORWARDED-FOR", "c")])).
  { vm_compute. lia. }
  split; [exact Hname|]. split; [exact Hlen|].
  exact (transform_headers_merges _ _ Hname Hlen).
Defined.

(** C8, as the spec words it, fails at a repeated cookie header: the
    name occurs twice and the normalized map has no entry for it. *)
Lemma transform_headers_merges_cookie :
  2 <= length (values_of "cookie" [("Cookie", "a=b"); ("cookie", "c=d")]) /\
  entries_of "cookie" (_transform_headers (of_raw [("Cookie", "a=b"); ("cookie", "c=d")]))
  <> [("cookie", PList (map PStr (values_of "cookie" [("Cookie", "a=b"); ("cookie", "c=d")])))].
Proof. split; [vm_compute; lia | vm_compute; discriminate]. Qed.

(* ===================================================================== *)
(** ** The address registry *)
(* ===================================================================== *)

Lemma _mark_needed_grows (address : string) (self : AppSecSpanProcessor) :
  _addresses_to_keep self ⊆ _addresses_to_keep (_mark_needed address self).
Proof. unfold _mark_needed. simpl. set_solver. Qed.

Lemma fold_mark_needed_keeps (addresses : list string) (self : AppSecSpanProcessor) :
  _addresses_to_keep self
  ⊆ _addresses_to_keep
      (fold_left (fun self address => _mark_needed address self) addresses self)
  /\ _ddwaf (fold_left (fun self address => _mark_needed address self) addresses self)
     = _ddwaf self.
Proof.
  revert self. induction addresses as [|a addresses IH]; intros self; simpl.
  - split; [set_solver | reflexivity].
  - destruct (IH (_mark_needed a self)) as [Hsub Hwaf]. split.
    + etransitivity; [apply (_mark_needed_grows a)|exact Hsub].
    + rewrite Hwaf. reflexivity.
Qed.

(** What a construction that returns has done: an engine is in place, the
    baseline address is in the registry, and nothing was taken out. *)
Lemma __attrs_post_init___spec (w : World) (self self' : AppSecSpanProcessor) :
  __attrs_post_init__ w self = Val self' ->
  enabled self' = true /\
  _Addresses.SERVER_REQUEST_HEADERS_NO_COOKIES ∈ _addresses_to_keep self' /\
  _addresses_to_keep self ⊆ _addresses_to_keep self'.
Proof.
  unfold __attrs_post_init__, enabled. intros H.
  destruct (_ddwaf self) as [waf|] eqn:Hwaf.
  - injection H as <-. simpl.
    destruct (fold_mark_needed_keeps (required_data waf) self) as [Hsub Heng].
    rewrite Heng, Hwaf. split; [reflexivity|]. split; set_solver.
  - destruct (load_rules w (rules self)) as [rules_json|]; [|discriminate].
    destruct (new_DDWaf w rules_json) as [waf|]; [|discriminate].
    injection H as <-. simpl.
    destruct (fold_mark_needed_keeps (required_data waf)
                (mkProcessor (rules self) (Some waf) (_addresses_to_keep self)))
      as [Hsub Heng].
    rewrite Heng. simpl in *. split; [reflexivity|]. split; set_solver.
Qed.

(** C7: after a construction that completes, the registry holds the
    baseline request-headers address whatever the engine requires, and
    the registry only grows: construction keeps every address it started
    with, marking an address twice is marking it once, and marking an
    address keeps every address that was needed. *)
Theorem registry_baseline_and_growth (w : World) (self self' : AppSecSpanProcessor) :
  __attrs_post_init__ w self = Val self' ->
  _is_needed self' _Addresses.SERVER_REQUEST_HEADERS_NO_COOKIES = true /\
  _addresses_to_keep self ⊆ _addresses_to_keep self' /\
  (forall (p : AppSecSpanProcessor) (a : string),
      _mark_needed a (_mark_needed a p) = _mark_needed a p) /\
  (forall (p : AppSecSpanProcessor) (a b : string),
      _is_needed p a = true -> _is_needed (_mark_needed b p) a = true).
Proof.
  intros H. destruct (__attrs_post_init___spec _ _ _ H) as (_ & Hbase & Hsub).
  split; [now apply bool_decide_eq_true|]. split; [exact Hsub|]. split.
  - intros p a. unfold _mark_needed. simpl. f_equal.
    apply set_eq. intros x. rewrite !elem_of_union. tauto.
  - intros p a b. unfold _is_needed. rewrite !bool_decide_eq_true.
    apply _mark_needed_grows.
Qed.

Lemma registry_baseline_and_growth_witness :
  _is_needed example_constructed _Addresses.SERVER_REQUEST_HEADERS_NO_COOKIES = true /\
  (∅ : gset string) ⊆ _addresses_to_keep example_constructed /\
  (forall (p : AppSecSpanProcessor) (a : string),
      _mark_needed a (_mark_needed a p) = _mark_needed a p) /\
  (forall (p : AppSecSpanProcessor) (a b : string),
      _is_needed p a = true -> _is_needed (_mark_needed b p) a = true).
Proof.
  apply (registry_baseline_and_growth example_world
           (mkProcessor "rules.json" None ∅) example_constructed).
  reflexivity.
Defined.

(* ===================================================================== *)
(** ** Writing to the span *)
(* ===================================================================== *)

Lemma bind_val {A B : Type} (m : M A) (f : A -> M B) (s s' : Span) (a : A) :
  m s = (Val a, s') -> bind m f s = f a s'.
Proof. unfold bind. now intros ->. Qed.

Lemma bind_exn {A B : Type} (m : M A) (f : A -> M B) (s s' : Span) (e : exn) :
  m s = (Exn e, s') -> bind m f s = (Exn e, s').
Proof. unfold bind. now intros ->. Qed.

Lemma header_frame_refl (s : Span) : header_frame s s.
Proof. repeat split. Qed.

Lemma header_frame_trans (s1 s2 s3 : Span) :
  header_frame s1 s2 -> header_frame s2 s3 -> header_frame s1 s3.
Proof.
  intros (Ht & Hm & Hp & He & Hk) (Ht' & Hm' & Hp' & He' & Hk').
  repeat split; try congruence.
  intros key Hkey. now rewrite Hk', Hk.
Qed.

Lemma header_tag_not_keep (kind name : string) :
  kind = "request" \/ kind = "response" ->
  _normalize_tag_name kind name <> MANUAL_KEEP_KEY.
Proof. intros [->| ->]; discriminate. Qed.

(** Header projection returns, and writes header tags only. *)
Lemma _set_headers_frame (kind : string) (to_collect : gset string)
    (headers : dict pyval) (s : Span) :
  kind = "request" \/ kind = "response" ->
  exists s', _set_headers kind to_collect headers s = (Val tt, s') /\ header_frame s s'.
Proof.
  intros Hkind. revert s. induction headers as [|[k v] headers IH]; intros s; simpl.
  - exists s. split; [reflexivity | apply header_frame_refl].
  - destruct (bool_decide (lower k ∈ to_collect)).
    + unfold bind at 1, set_tag.
      destruct (decide (_normalize_tag_name kind k = MANUAL_KEEP_KEY)) as [Heq|_].
      { now apply header_tag_not_keep in Heq. }
      match goal with |- context [_set_headers _ _ _ ?s1] =>
        destruct (IH s1) as (s' & Hrun & Hframe) end.
      exists s'. split; [exact Hrun|].
      eapply header_frame_trans; [|exact Hframe].
      repeat split. simpl. intros key Hkey. apply lookup_insert_ne.
      intros <-. apply Hkey. now exists kind, k.
    + unfold bind at 1, ret. apply IH.
Qed.

Lemma not_header_tag (key : string) :
  (forall name, key <> _normalize_tag_name "request" name) ->
  (forall name, key <> _normalize_tag_name "response" name) ->
  ~ header_tag key.
Proof. intros Hrq Hrs (kind & name & [->| ->] & Heq); [eapply Hrq | eapply Hrs]; eauto. Qed.

Lemma origin_not_header_tag : ~ header_tag ORIGIN_KEY.
Proof. apply not_header_tag; discriminate. Qed.

Lemma runtime_family_not_header_tag : ~ header_tag "_dd.runtime_family".
Proof. apply not_header_tag; discriminate. Qed.

(** The two header projections of a match, one after the other. *)
Lemma project_headers_frame (request_headers response_headers : option (dict pyval))
    (k : M unit) (s : Span) :
  exists s',
    header_frame s s' /\
    (match request_headers with
     | Some h => _set_headers "request" _COLLECTED_REQUEST_HEADERS h
     | None => ret tt
     end ;;
     match response_headers with
     | Some h => _set_headers "response" _COLLECTED_RESPONSE_HEADERS h
     | None => ret tt
     end ;;
     k) s = k s'.
Proof.
  assert (H1 : exists s1,
    match request_headers with
    | Some h => _set_headers "request" _COLLECTED_REQUEST_HEADERS h
    | None => ret tt
    end s = (Val tt, s1) /\ header_frame s s1).
  { destruct request_headers as [h|]; [apply _set_headers_frame; now left|].
    exists s. split; [reflexivity | apply header_frame_refl]. }
  destruct H1 as (s1 & Hrun1 & Hframe1).
  assert (H2 : exists s2,
    match response_headers with
    | Some h => _set_headers "response" _COLLECTED_RESPONSE_HEADERS h
    | None => ret tt
    end s1 = (Val tt, s2) /\ header_frame s1 s2).
  { destruct response_headers as [h|]; [apply _set_headers_frame; now right|].
    exists s1. split; [reflexivity | apply header_frame_refl]. }
  destruct H2 as (s2 & Hrun2 & Hframe2).
  exists s2. split; [eapply header_frame_trans; eassumption|].
  rewrite (bind_val _ _ _ _ _ Hrun1), (bind_val _ _ _ _ _ Hrun2). reflexivity.
Qed.

(** What a match writes: it returns, leaves the metrics and the
    runtime-family tag alone, forces retention, sets the event tag and the
    serialized result, and sets the origin only where there was none. *)
Lemma apply_result_match (res : string)
    (request_headers response_headers : option (dict pyval)) (s : Span) :
  exists s',
    apply_result (Some res) request_headers response_headers s = (Val tt, s') /\
    metrics s' = metrics s /\
    meta s' !! "_dd.runtime_family" = meta s !! "_dd.runtime_family" /\
    meta s' !! "appsec.event" = Some "true" /\
    meta s' !! "_dd.appsec.json" = Some (triggers res) /\
    sampling_priority s' = Some USER_KEEP /\
    meta s' !! ORIGIN_KEY = Some (default "appsec" (meta s !! ORIGIN_KEY)).
Proof.
  unfold apply_result.
  destruct (project_headers_frame request_headers response_headers
    (_set_str_tag "appsec.event" "true" ;;
     _set_str_tag "_dd.appsec.json" (triggers res) ;;
     set_tag MANUAL_KEEP_KEY PNone ;;
     origin <- get_tag ORIGIN_KEY ;;
     match origin with
     | None => _set_str_tag ORIGIN_KEY "appsec"
     | Some _ => ret tt
     end) s) as (s2 & (Ht & Hm & Hp & He & Hk) & ->).
  pose proof (Hk _ origin_not_header_tag) as Horigin.
  pose proof (Hk _ runtime_family_not_header_tag) as Hfamily.
  unfold bind, _set_str_tag, set_tag, get_tag, ret. simpl.
  rewrite !lookup_insert_ne, Horigin by discriminate.
  destruct (meta s !! ORIGIN_KEY) as [v|] eqn:Hv; simpl;
    (eexists; split; [reflexivity|]; simpl;
     repeat split; try assumption;
     repeat first [ rewrite lookup_insert_eq; reflexivity
                  | rewrite lookup_insert_ne by discriminate
                  | assumption ]).
Qed.

(** [on_span_finish] on a WEB span, step by step. *)
Lemma on_span_finish_web (self : AppSecSpanProcessor) (ctx : gmap string pyval)
    (s : Span) :
  span_type s = Some WEB ->
  on_span_finish self ctx s =
  match extract self ctx with
  | Exn e => (Exn e, baseline s)
  | Val (data, request_headers, response_headers) =>
      match run_engine self data with
      | Exn e => (Exn e, baseline s)
      | Val res => apply_result res request_headers response_headers (baseline s)
      end
  end.
Proof.
  intros Hweb. unfold on_span_finish, bind at 1, get_span_type. rewrite Hweb.
  rewrite bool_decide_eq_true_2 by reflexivity. simpl negb. cbv iota.
  unfold bind at 1, set_metric. unfold bind at 1, _set_str_tag. simpl.
  fold (baseline s). unfold bind at 1, lift.
  destruct (extract self ctx) as [[[data rq] rs]|e]; [|reflexivity].
  unfold bind at 1. destruct (run_engine self data); reflexivity.
Qed.

(* ===================================================================== *)
(** ** The span processor *)
(* ===================================================================== *)

(** C3, as the code has it: [on_span_finish] does not look at the engine
    before it writes. Without an engine it is a no-op, writing nothing and
    raising nothing, for every span that is not a WEB span; and no
    construction that returns leaves a processor without an engine. *)
Theorem on_span_finish_without_engine :
  (forall (self : AppSecSpanProcessor) (ctx : gmap string pyval) (s : Span),
      enabled self = false -> span_type s <> Some WEB ->
      on_span_finish self ctx s = (Val tt, s)) /\
  (forall (w : World) (self self' : AppSecSpanProcessor),
      __attrs_post_init__ w self = Val self' -> enabled self' = true).
Proof.
  split.
  - intros self ctx s _ Hty. unfold on_span_finish, bind, get_span_type.
    now rewrite bool_decide_eq_false_2.
  - intros w self self' H. now destruct (__attrs_post_init___spec _ _ _ H).
Qed.

Lemma on_span_finish_without_engine_witness :
  on_span_finish no_engine ∅ (mkSpan (Some "http") ∅ ∅ None 0)
  = (Val tt, mkSpan (Some "http") ∅ ∅ None 0) /\
  enabled example_constructed = true.
Proof.
  split.
  - apply (proj1 on_span_finish_without_engine); [reflexivity | discriminate].
  - apply (proj2 on_span_finish_without_engine example_world
             (mkProcessor "rules.json" None ∅)).
    reflexivity.
Defined.

(** C3, as the spec words it, fails on a WEB span: without an engine the
    call writes the baseline telemetry and then raises. *)
Lemma on_span_finish_without_engine_web :
  enabled no_engine = false /\
  on_span_finish no_engine ∅ fresh_web_span
  = (Exn AttributeError, baseline fresh_web_span) /\
  on_span_finish no_engine ∅ fresh_web_span <> (Val tt, fresh_web_span).
Proof.
  split; [reflexivity|].
  rewrite on_span_finish_web by reflexivity. simpl.
  split; [reflexivity | discriminate].
Qed.

(** C4: when the engine returns a result for a WEB span, an origin tag
    that was set keeps its value, and an origin tag that was unset becomes
    ["appsec"]. *)
Theorem on_span_finish_origin (self : AppSecSpanProcessor) (ctx : gmap string pyval)
    (s : Span) (data : dict pyval) (request_headers response_headers : option (dict pyval))
    (res : string) :
  span_type s = Some WEB ->
  extract self ctx = Val (data, request_headers, response_headers) ->
  run_engine self data = Val (Some res) ->
  fst (on_span_finish self ctx s) = Val tt /\
  (forall V, meta s !! ORIGIN_KEY = Some V ->
             meta (snd (on_span_finish self ctx s)) !! ORIGIN_KEY = Some V) /\
  (meta s !! ORIGIN_KEY = None ->
   meta (snd (on_span_finish self ctx s)) !! ORIGIN_KEY = Some "appsec").
Proof.
  intros Hweb Hex Hrun. rewrite on_span_finish_web, Hex, Hrun by assumption.
  destruct (apply_result_match res request_headers response_headers (baseline s))
    as (s' & -> & _ & _ & _ & _ & _ & Horigin).
  simpl in *. rewrite lookup_insert_ne in Horigin by discriminate.
  split; [reflexivity|]. split.
  - intros V HV. now rewrite Horigin, HV.
  - intros HV. now rewrite Horigin, HV.
Qed.

Lemma on_span_finish_origin_witness :
  meta (snd (on_span_finish matching_processor encoded_response synthetic_web_span))
    !! ORIGIN_KEY = Some "synthetics" /\
  meta (snd (on_span_finish matching_processor encoded_response fresh_web_span))
    !! ORIGIN_KEY = Some "appsec".
Proof.
  split.
  - eapply (on_span_finish_origin matching_processor encoded_response synthetic_web_span);
      reflexivity.
  - eapply (on_span_finish_origin matching_processor encoded_response fresh_web_span);
      reflexivity.
Defined.

(** C5: on a WEB span the detection-enabled metric, with value 1.0, and
    the runtime-family tag are on the span after the call, whatever the
    engine does; and when the engine returns no result, the call returns
    and the span carries the baseline telemetry and nothing else new. *)
Theorem on_span_finish_baseline (self : AppSecSpanProcessor) (ctx : gmap string pyval)
    (s : Span) :
  span_type s = Some WEB ->
  metrics (snd (on_span_finish self ctx s)) !! "_dd.appsec.enabled" = Some one_point_zero /\
  meta (snd (on_span_finish self ctx s)) !! "_dd.runtime_family" = Some "python" /\
  (forall data request_headers response_headers,
      extract self ctx = Val (data, request_headers, response_headers) ->
      run_engine self data = Val None ->
      on_span_finish self ctx s = (Val tt, baseline s)).
Proof.
  intros Hweb. rewrite on_span_finish_web by assumption.
  assert (Hbase : metrics (baseline s) !! "_dd.appsec.enabled" = Some one_point_zero /\
                  meta (baseline s) !! "_dd.runtime_family" = Some "python").
  { split; apply lookup_insert_eq. }
  destruct (extract self ctx) as [[[data rq] rs]|e] eqn:Hex.
  - destruct (run_engine self data) as [[res|]|e] eqn:Hrun.
    + destruct (apply_result_match res rq rs (baseline s))
        as (s' & -> & Hm & Hfam & _). simpl snd. rewrite Hm, Hfam.
      split; [apply Hbase|]. split; [apply Hbase|].
      intros data' rq' rs' [= <- <- <-]. congruence.
    + simpl. split; [apply Hbase|]. split; [apply Hbase|]. reflexivity.
    + simpl. split; [apply Hbase|]. split; [apply Hbase|].
      intros data' rq' rs' [= <- <- <-]. congruence.
  - simpl. split; [apply Hbase|]. split; [apply Hbase|]. discriminate.
Qed.

Lemma on_span_finish_baseline_witness :
  metrics (snd (on_span_finish silent_processor encoded_response fresh_web_span))
    !! "_dd.appsec.enabled" = Some one_point_zero /\
  meta (snd (on_span_finish silent_processor encoded_response fresh_web_span))
    !! "_dd.runtime_family" = Some "python" /\
  on_span_finish silent_processor encoded_response fresh_web_span
  = (Val tt, baseline fresh_web_span).
Proof.
  destruct (on_span_finish_baseline silent_processor encoded_response fresh_web_span)
    as (Hmetric & Hfamily & Hnull); [reflexivity|].
  split; [exact Hmetric|]. split; [exact Hfamily|].
  eapply Hnull; reflexivity.
Defined.

(** C10: when the engine raises on a WEB span, the exception leaves
    [on_span_finish] as it is, and the span carries the baseline
    telemetry, which was written before the engine ran. *)
Theorem on_span_finish_engine_raises (self : AppSecSpanProcessor)
    (ctx : gmap string pyval) (s : Span) (waf : DDWaf) (data : dict pyval)
    (request_headers response_headers : option (dict pyval)) (e : exn) :
  span_type s = Some WEB ->
  _ddwaf self = Some waf ->
  extract self ctx = Val (data, request_headers, response_headers) ->
  run waf data = Exn e ->
  on_span_finish self ctx s = (Exn e, baseline s) /\
  metrics (baseline s) !! "_dd.appsec.enabled" = Some one_point_zero /\
  meta (baseline s) !! "_dd.runtime_family" = Some "python".
Proof.
  intros Hweb Hwaf Hex Hrun. rewrite on_span_finish_web, Hex by assumption.
  unfold run_engine. rewrite Hwaf, Hrun.
  split; [reflexivity|]. split; apply lookup_insert_eq.
Qed.

Lemma on_span_finish_engine_raises_witness :
  on_span_finish failing_processor encoded_response fresh_web_span
  = (Exn (OtherException "RuntimeError"), baseline fresh_web_span) /\
  metrics (baseline fresh_web_span) !! "_dd.appsec.enabled" = Some one_point_zero /\
  meta (baseline fresh_web_span) !! "_dd.runtime_family" = Some "python".
Proof.
  eapply (on_span_finish_engine_raises failing_processor encoded_response
            fresh_web_span); reflexivity.
Defined.

(** No casing of [content-encoding] or [content-language] passes the
    test of [_set_headers] against the response allow-list of the code,
    which holds the two names capitalized. *)
Lemma response_allow_list_misses (k : string) :
  lower k = "content-encoding" \/ lower k = "content-language" ->
  bool_decide (lower k ∈ _COLLECTED_RESPONSE_HEADERS) = false.
Proof. intros [->| ->]; reflexivity. Qed.

(** C2, on the code: on a match with the four allow-listed response
    headers present, the span gets the tags of [content-length] and
    [content-type] and none for [content-encoding] or [content-language]. *)
Theorem response_headers_projected :
  fst (on_span_finish matching_processor encoded_response fresh_web_span) = Val tt /\
  meta (snd (on_span_finish matching_processor encoded_response fresh_web_span))
  = {[ "_dd.runtime_family" := "python";
       "response.headers.content-length" := "42";
       "response.headers.content-type" := "text/html";
       "appsec.event" := "true";
       "_dd.appsec.json" := triggers "[{'rule': 'R1'}]";
       ORIGIN_KEY := "appsec" ]}.
Proof. split; [reflexivity | vm_compute; reflexivity]. Qed.

(* ===================================================================== *)
(** ** The OpenSearch wrapper *)
(* ===================================================================== *)

(** The metadata extraction either returns, having written at most the
    [took] metric, or raises an [Exception] and leaves the span alone. *)
Lemma extract_took_unfold (data : pyval) (s : Span) :
  extract_took data s =
  match py_get data "took" with
  | Exn e => (Exn e, s)
  | Val took =>
      if truthy took then
        match py_int took with
        | Val n => set_metric TOOK (Int n) s
        | Exn e => (Exn e, s)
        end
      else (Val tt, s)
  end.
Proof.
  unfold extract_took, bind, lift.
  destruct (py_get data "took") as [took|]; [|reflexivity].
  destruct (truthy took); [|reflexivity].
  destruct (py_int took); reflexivity.
Qed.

Lemma py_get_raises (data : pyval) (key : string) (e : exn) :
  py_get data key = Exn e -> is_Exception e = true.
Proof. destruct data; simpl; intros [= <-] || discriminate; reflexivity. Qed.

Lemma py_int_raises (v : pyval) (e : exn) :
  py_int v = Exn e -> is_Exception e = true.
Proof.
  destruct v as [| | |t| | |]; simpl; try discriminate;
    try (intros [= <-]; reflexivity).
  destruct (int_of_str t); [discriminate|]. now intros [= <-].
Qed.

Lemma extract_took_cases (data : pyval) (s : Span) :
  (exists s', extract_took data s = (Val tt, s') /\ meta s' = meta s) \/
  (exists e, extract_took data s = (Exn e, s) /\ is_Exception e = true).
Proof.
  rewrite extract_took_unfold.
  destruct (py_get data "took") as [took|e] eqn:Hget.
  - destruct (truthy took).
    + destruct (py_int took) as [n|e] eqn:Hint.
      * left. eexists. split; reflexivity.
      * right. exists e. split; [reflexivity|]. eapply py_int_raises, Hint.
    + left. exists s. split; reflexivity.
  - right. exists e. split; [reflexivity|]. eapply py_get_raises, Hget.
Qed.

Lemma try_except_pass_extract_took (data : pyval) (s : Span) :
  exists s', try_except_pass (extract_took data) s = (Val tt, s') /\
             meta s' = meta s /\
             (forall e, fst (extract_took data s) = Exn e -> s' = s).
Proof.
  unfold try_except_pass.
  destruct (extract_took_cases data s) as [(s' & -> & Hmeta)|(e & -> & ->)].
  - exists s'. repeat split; [assumption | discriminate].
  - exists s. repeat split.
Qed.

Lemma tag_status_frame (status : pyval) (s : Span) :
  exists s', tag_status status s = (Val tt, s') /\ metrics s' = metrics s /\
             forall key, key <> STATUS_CODE -> meta s' !! key = meta s !! key.
Proof.
  unfold tag_status. destruct (truthy status).
  - eexists. split; [reflexivity|]. split; [reflexivity|].
    intros key Hkey. simpl. now rewrite lookup_insert_ne.
  - exists s. repeat split.
Qed.

(** The wrapper on a call that returned: the result comes back, and the
    span is the one the [try] statement left, with the status tag. *)
Lemma _perform_request_returned (result : pyval) (s : Span) :
  _perform_request (Val result) s
  = (Val result,
     snd (tag_status (status_and_data result).1
            (snd (try_except_pass (extract_took (status_and_data result).2) s)))).
Proof.
  unfold _perform_request. unfold bind at 1, ret at 1.
  destruct (status_and_data result) as [status data]. simpl fst. simpl snd.
  destruct (try_except_pass_extract_took data s) as (s' & Htry & _).
  rewrite (bind_val _ _ _ _ _ Htry), Htry. simpl snd.
  fold (tag_status status).
  destruct (tag_status_frame status s') as (s1 & Hrun & _).
  now rewrite (bind_val _ _ _ _ _ Hrun), Hrun.
Qed.

(** C9: once the wrapped call has returned, the call of the wrapper
    returns its result, whatever the extraction of the metadata does; an
    extraction that fails leaves the [try] statement with the span as it
    was, and the span of the whole call differs from it by nothing but the
    status tag that the wrapper writes afterwards. *)
Theorem perform_request_soft_fail (result : pyval) (s : Span) :
  fst (_perform_request (Val result) s) = Val result /\
  forall e, fst (extract_took (status_and_data result).2 s) = Exn e ->
    try_except_pass (extract_took (status_and_data result).2) s = (Val tt, s) /\
    _perform_request (Val result) s
    = (Val result, snd (tag_status (status_and_data result).1 s)) /\
    metrics (snd (_perform_request (Val result) s)) = metrics s /\
    forall key, key <> STATUS_CODE ->
                meta (snd (_perform_request (Val result) s)) !! key = meta s !! key.
Proof.
  rewrite _perform_request_returned. split; [reflexivity|].
  intros e He.
  destruct (try_except_pass_extract_took (status_and_data result).2 s)
    as (s' & Htry & _ & Hsame).
  specialize (Hsame e He). subst s'. rewrite Htry. simpl snd.
  destruct (tag_status_frame (status_and_data result).1 s)
    as (s1 & Hrun & Hmetrics & Hkeys).
  rewrite Hrun. simpl. repeat split; assumption.
Qed.

Lemma perform_request_soft_fail_witness :
  fst (extract_took (status_and_data odd_response).2 query_span) = Exn ValueError /\
  fst (_perform_request (Val odd_response) query_span) = Val odd_response /\
  try_except_pass (extract_took (status_and_data odd_response).2) query_span
  = (Val tt, query_span) /\
  meta (snd (_perform_request (Val odd_response) query_span)) !! "opensearch.method"
  = Some "GET".
Proof.
  assert (He : fst (extract_took (status_and_data odd_response).2 query_span)
               = Exn ValueError) by reflexivity.
  destruct (perform_request_soft_fail odd_response query_span) as [Hret Hfail].
  destruct (Hfail ValueError He) as (Htry & _ & _ & Hkeys).
  split; [exact He|]. split; [exact Hret|]. split; [exact Htry|].
  rewrite Hkeys by discriminate. reflexivity.
Defined.

(* ===================================================================== *)
(** ** More on header normalization *)
(* ===================================================================== *)

Lemma dict_keys_set_elem {V : Type} (d : dict V) (k k' : string) (v : V) :
  k' ∈ dict_keys (dict_set k v d) <-> k' = k \/ k' ∈ dict_keys d.
Proof.
  destruct (decide (k ∈ dict_keys d)) as [Hin|Hout].
  - rewrite dict_keys_set_in by assumption. split; [tauto|].
    intros [->|H]; assumption.
  - rewrite dict_set_fresh, dict_keys_app by assumption. simpl.
    rewrite elem_of_app, list_elem_of_singleton. tauto.
Qed.

Lemma dict_set_length {V : Type} (d : dict V) (k : string) (v : V) :
  length (dict_set k v d) <= S (length d).
Proof.
  induction d as [|[k' v'] d IH]; simpl; [lia|].
  destruct (decide (k' = k)); simpl; lia.
Qed.

(** The keys after one turn of the loop: the keys before, and the
    lower-cased name of the item unless it is redacted. *)
Lemma _transform_headers_step_keys (normalized : dict pyval)
    (item : string * pyval) (k : string) :
  k ∈ dict_keys (_transform_headers_step normalized item) <->
  k ∈ dict_keys normalized \/ (k = lower item.1 /\ ~ redacted k).
Proof.
  destruct item as [header value]. unfold _transform_headers_step. simpl.
  destruct (bool_decide (lower header ∈ ["cookie"; "set-cookie"])) eqn:Htest.
  - apply redacted_test in Htest. split; [tauto|].
    intros [H|[-> H]]; [assumption | contradiction].
  - assert (Hred : ~ redacted (lower header)).
    { intros H. apply redacted_test in H. congruence. }
    assert (Hset : forall v : pyval,
      k ∈ dict_keys (dict_set (lower header) v normalized) <->
      k ∈ dict_keys normalized \/ (k = lower header /\ ~ redacted k)).
    { intros v. rewrite dict_keys_set_elem. split.
      - intros [->|H]; [right; now split | now left].
      - intros [H|[-> _]]; [now right | now left]. }
    destruct (dict_get normalized (lower header)) as [[]|]; apply Hset.
Qed.

Lemma fold_transform_keys (data normalized : dict pyval) (k : string) :
  k ∈ dict_keys (fold_left _transform_headers_step data normalized) <->
  k ∈ dict_keys normalized \/
  (~ redacted k /\ exists k0, k0 ∈ dict_keys data /\ lower k0 = k).
Proof.
  revert normalized. induction data as [|item data IH]; intros normalized; simpl.
  - split; [tauto|]. intros [H|(_ & k0 & H & _)]; [assumption|].
    now apply elem_of_nil in H.
  - rewrite IH, _transform_headers_step_keys. split.
    + intros [[H|[-> Hred]]|(Hred & k0 & Hin & <-)].
      * now left.
      * right. split; [assumption|]. exists item.1. split; [left | reflexivity].
      * right. split; [assumption|]. exists k0. split; [now right | reflexivity].
    + intros [H|(Hred & k0 & Hin & <-)]; [now left; left|].
      apply elem_of_cons in Hin as [->|Hin].
      * left. right. now split.
      * right. split; [assumption|]. now exists k0.
Qed.

Lemma fold_transform_length (data normalized : dict pyval) :
  length (fold_left _transform_headers_step data normalized)
  <= length normalized + length data.
Proof.
  revert normalized. induction data as [|[header value] data IH];
    intros normalized; cbn [fold_left length]; [lia|].
  assert (Hstep : length (_transform_headers_step normalized (header, value))
                  <= S (length normalized)).
  { unfold _transform_headers_step.
    destruct (bool_decide _); [lia|].
    destruct (dict_get normalized (lower header)) as [[]|]; apply dict_set_length. }
  specialize (IH (_transform_headers_step normalized (header, value))). lia.
Qed.

(** X1: the names of a normalized map are pairwise distinct, and each is
    its own lower-casing. *)
Theorem transform_headers_keys_distinct_lower (data : dict pyval) :
  NoDup (dict_keys (_transform_headers data)) /\
  Forall (fun k => lower k = k) (dict_keys (_transform_headers data)).
Proof.
  destruct (_transform_headers_ok data) as [Hnd Hok]. split; [exact Hnd|].
  eapply Forall_impl; [exact Hok|]. now intros k [Hlow _].
Qed.

(** X2: a name is in the normalized map exactly when it is not redacted
    and is the lower-casing of a name of the input: no other header is
    lost, none is made up. *)
Theorem transform_headers_keys (data : dict pyval) (k : string) :
  k ∈ dict_keys (_transform_headers data) <->
  ~ redacted k /\ exists k0, k0 ∈ dict_keys data /\ lower k0 = k.
Proof.
  unfold _transform_headers. rewrite fold_transform_keys. simpl.
  split; [|tauto]. intros [H|H]; [now apply elem_of_nil in H | exact H].
Qed.

(** X3: a map whose names are distinct, lower-cased and not redacted is
    returned as it is, values and order included. *)
Theorem transform_headers_fixed_point (d : dict pyval) :
  NoDup (dict_keys d) ->
  Forall (fun k => lower k = k /\ ~ redacted k) (dict_keys d) ->
  _transform_headers d = d.
Proof.
  intros Hnd Hok. unfold _transform_headers.
  now rewrite fold_transform_append.
Qed.

Lemma transform_headers_fixed_point_witness :
  _transform_headers [("host", PStr "h"); ("via", PList [PStr "a"; PStr "b"])]
  = [("host", PStr "h"); ("via", PList [PStr "a"; PStr "b"])].
Proof.
  apply (transform_headers_fixed_point
           [("host", PStr "h"); ("via", PList [PStr "a"; PStr "b"])]).
  - simpl. apply NoDup_cons. split.
    + rewrite list_elem_of_singleton. discriminate.
    + apply NoDup_singleton.
  - simpl. repeat constructor; unfold redacted; intros [H|H]; discriminate H.
Defined.

(** X4: what a raw map gives for a name: nothing when the name is
    redacted or does not occur, the value itself when it occurs once, and
    the list of the values in input order when it occurs more often. *)
Theorem transform_headers_lookup (h : dict string) (name : string) :
  (redacted name -> dict_get (_transform_headers (of_raw h)) name = None) /\
  (~ redacted name ->
   dict_get (_transform_headers (of_raw h)) name =
   match values_of name h with
   | [] => None
   | [v] => Some (PStr v)
   | vs => Some (PList (map PStr vs))
   end).
Proof.
  split.
  - intros Hred. apply dict_get_None. intros Hin.
    unfold _transform_headers in Hin. apply fold_transform_keys in Hin.
    destruct Hin as [Hin|[Hnot _]]; [now apply elem_of_nil in Hin | contradiction].
  - intros Hname. rewrite _transform_headers_lookup by assumption.
    unfold merged. now destruct (values_of name h) as [|v1 [|v2 vs]].
Qed.

Lemma transform_headers_lookup_witness :
  dict_get (_transform_headers (of_raw [("Set-Cookie", "a"); ("Host", "h")])) "set-cookie"
  = None /\
  dict_get (_transform_headers (of_raw [("Set-Cookie", "a"); ("Host", "h")])) "host"
  = Some (PStr "h").
Proof.
  split.
  - apply (proj1 (transform_headers_lookup [("Set-Cookie", "a"); ("Host", "h")] "set-cookie")).
    now right.
  - apply (proj2 (transform_headers_lookup [("Set-Cookie", "a"); ("Host", "h")] "host")).
    unfold redacted. intros [H|H]; discriminate H.
Defined.

(** X5: a normalized map has at most as many entries as the input. *)
Theorem transform_headers_length (data : dict pyval) :
  length (_transform_headers data) <= length data.
Proof. apply (fold_transform_length data []). Qed.

(* ===================================================================== *)
(** ** More on construction *)
(* ===================================================================== *)

Lemma fold_mark_needed_exact (addresses : list string) (self : AppSecSpanProcessor) :
  _addresses_to_keep
    (fold_left (fun self address => _mark_needed address self) addresses self)
  = list_to_set addresses ∪ _addresses_to_keep self /\
  rules (fold_left (fun self address => _mark_needed address self) addresses self)
  = rules self.
Proof.
  revert self. induction addresses as [|a addresses IH]; intros self; simpl.
  - split; [|reflexivity]. apply set_eq. intros x.
    rewrite elem_of_union, elem_of_empty. tauto.
  - destruct (IH (_mark_needed a self)) as [-> ->]. simpl. split; [|reflexivity].
    apply set_eq. intros x. rewrite !elem_of_union. tauto.
Qed.

(** X6: a construction that returns has an engine, and its registry is
    what it started with, the addresses that this engine requires and the
    baseline address, and nothing else. *)
Theorem registry_after_construction (w : World) (self self' : AppSecSpanProcessor) :
  __attrs_post_init__ w self = Val self' ->
  exists waf,
    _ddwaf self' = Some waf /\
    rules self' = rules self /\
    _addresses_to_keep self'
    = {[ _Addresses.SERVER_REQUEST_HEADERS_NO_COOKIES ]} ∪
      (list_to_set (required_data waf) ∪ _addresses_to_keep self).
Proof.
  unfold __attrs_post_init__. intros H.
  destruct (_ddwaf self) as [waf|] eqn:Hwaf.
  - injection H as <-. exists waf. simpl.
    destruct (fold_mark_needed_keeps (required_data waf) self) as [_ ->].
    destruct (fold_mark_needed_exact (required_data waf) self) as [-> ->].
    now split.
  - destruct (load_rules w (rules self)) as [rules_json|]; [|discriminate].
    destruct (new_DDWaf w rules_json) as [waf|]; [|discriminate].
    injection H as <-. exists waf. simpl.
    destruct (fold_mark_needed_keeps (required_data waf)
                (mkProcessor (rules self) (Some waf) (_addresses_to_keep self)))
      as [_ ->].
    destruct (fold_mark_needed_exact (required_data waf)
                (mkProcessor (rules self) (Some waf) (_addresses_to_keep self)))
      as [-> ->].
    now split.
Qed.

Lemma registry_after_construction_witness :
  exists waf,
    _ddwaf example_constructed = Some waf /\
    rules example_constructed = "rules.json" /\
    _addresses_to_keep example_constructed
    = {[ _Addresses.SERVER_REQUEST_HEADERS_NO_COOKIES ]} ∪
      (list_to_set (required_data waf) ∪ ∅).
Proof.
  apply (registry_after_construction example_world
           (mkProcessor "rules.json" None ∅) example_constructed).
  reflexivity.
Defined.

(** X7: construction fails exactly when no engine was passed in and
    either the rule file cannot be loaded or the engine rejects the rules,
    and it fails with the exception of that step; the engine is not built
    from rules that did not load. *)
Theorem construction_fails (w : World) (self : AppSecSpanProcessor) (e : exn) :
  __attrs_post_init__ w self = Exn e <->
  _ddwaf self = None /\
  (load_rules w (rules self) = Exn e \/
   exists rules_json, load_rules w (rules self) = Val rules_json /\
                      new_DDWaf w rules_json = Exn e).
Proof.
  unfold __attrs_post_init__. destruct (_ddwaf self) as [waf|].
  - split; [discriminate | now intros [? _]].
  - destruct (load_rules w (rules self)) as [rules_json|e'].
    + destruct (new_DDWaf w rules_json) as [waf|e''] eqn:Hnew.
      * split; [discriminate|]. intros [_ [H|(j & [= <-] & H)]]; congruence.
      * split.
        -- intros [= <-]. split; [reflexivity|]. right. now exists rules_json.
        -- intros [_ [H|(j & [= <-] & H)]]; congruence.
    + split.
      * intros [= <-]. split; [reflexivity|]. now left.
      * intros [_ [H|(j & H & _)]]; congruence.
Qed.

(* ===================================================================== *)
(** ** The data for the engine *)
(* ===================================================================== *)

Lemma get_item_not_None (ctx : gmap string pyval) (key : string) :
  get_item ctx key <> Some PNone.
Proof. unfold get_item. now destruct (ctx !! key) as [[]|]. Qed.

Lemma dict_get_collect (self : AppSecSpanProcessor) (ctx : gmap string pyval)
    (address key a : string) (data : dict pyval) :
  dict_get (collect self ctx address key data) a =
  if decide (address = a)
  then (if _is_needed self address
        then match get_item ctx key with
             | Some item => Some item
             | None => dict_get data a
             end
        else dict_get data a)
  else dict_get data a.
Proof.
  unfold collect. destruct (_is_needed self address).
  - destruct (get_item ctx key) as [item|].
    + apply dict_get_set.
    + now destruct (decide (address = a)).
  - now destruct (decide (address = a)).
Qed.

Lemma dict_get_with_headers (self : AppSecSpanProcessor) (address a : string)
    (headers : option (dict pyval)) (data : dict pyval) :
  dict_get (with_headers self address headers data) a =
  if decide (address = a)
  then (if _is_needed self address
        then match headers with
             | Some h => Some (PDict h)
             | None => dict_get data a
             end
        else dict_get data a)
  else dict_get data a.
Proof.
  unfold with_headers. destruct headers as [h|].
  - destruct (_is_needed self address).
    + apply dict_get_set.
    + now destruct (decide (address = a)).
  - now destruct (decide (address = a)), (_is_needed self address).
Qed.

Lemma headers_item_cases (ctx : gmap string pyval) (key : string) :
  (headers_item ctx key = Val (normalized_item ctx key) /\ ~ not_a_dict ctx key) \/
  (headers_item ctx key = Exn AttributeError /\ not_a_dict ctx key).
Proof.
  unfold headers_item, normalized_item, not_a_dict.
  destruct (get_item ctx key) as [v|] eqn:Hget.
  - destruct v; simpl;
      try (right; split; [reflexivity|]; eexists; split; [reflexivity|]; discriminate).
    left. split; [reflexivity|]. intros (v & [= <-] & Hv). now apply (Hv d).
  - left. split; [reflexivity|]. now intros (v & Hv & _).
Qed.

Lemma normalized_item_fixed (ctx : gmap string pyval) (key : string) (h : dict pyval) :
  normalized_item ctx key = Some h -> _transform_headers h = h.
Proof.
  unfold normalized_item. destruct (get_item ctx key) as [[]|]; try discriminate.
  intros [= <-]. destruct (_transform_headers_ok d) as [Hnd Hok].
  unfold _transform_headers at 1. now rewrite fold_transform_append.
Qed.

(** [extract] when it returns: both header items were a [dict] or
    missing, and the data are the writes of lines 171 to 212 in their
    order, the second normalization of the request headers gone. *)
Lemma extract_returns (self : AppSecSpanProcessor) (ctx : gmap string pyval)
    (data : dict pyval) (request_headers response_headers : option (dict pyval)) :
  extract self ctx = Val (data, request_headers, response_headers) ->
  request_headers = normalized_item ctx "http.request.headers" /\
  response_headers = normalized_item ctx "http.response.headers" /\
  data =
  with_headers self _Addresses.SERVER_RESPONSE_HEADERS_NO_COOKIES response_headers
    (collect self ctx _Addresses.SERVER_RESPONSE_STATUS "http.response.status"
    (collect self ctx _Addresses.SERVER_REQUEST_COOKIES "http.request.cookies"
    (collect self ctx _Addresses.SERVER_REQUEST_PATH_PARAMS "http.request.path_params"
    (collect self ctx _Addresses.SERVER_REQUEST_METHOD "http.request.method"
    (collect self ctx _Addresses.SERVER_REQUEST_URI_RAW "http.request.uri"
    (with_headers self _Addresses.SERVER_REQUEST_HEADERS_NO_COOKIES request_headers
    (collect self ctx _Addresses.SERVER_REQUEST_QUERY "http.request.query" []))))))).
Proof.
  unfold extract.
  destruct (headers_item_cases ctx "http.request.headers") as [[-> Hrq]|[-> _]];
    [|discriminate].
  destruct (headers_item_cases ctx "http.response.headers") as [[-> Hrs]|[-> _]];
    [|discriminate].
  intros [= <- <- <-]. split; [reflexivity|]. split; [reflexivity|].
  unfold with_headers.
  destruct (normalized_item ctx "http.request.headers") as [h|] eqn:Hh; [|reflexivity].
  now rewrite (normalized_item_fixed _ _ _ Hh).
Qed.

Ltac closed_decide :=
  repeat first [ rewrite decide_True by reflexivity
               | rewrite decide_False by discriminate ].

(** X8: for each address that is copied as it is, the data hold the item
    of the store when the address is needed and the item is there, and
    nothing under that address otherwise. *)
Theorem extract_copied (self : AppSecSpanProcessor) (ctx : gmap string pyval)
    (data : dict pyval) (request_headers response_headers : option (dict pyval))
    (address key : string) :
  extract self ctx = Val (data, request_headers, response_headers) ->
  (address, key) ∈ copied_addresses ->
  dict_get data address = if _is_needed self address then get_item ctx key else None.
Proof.
  intros Hex Hin. destruct (extract_returns _ _ _ _ _ Hex) as (_ & _ & ->).
  rewrite dict_get_with_headers, !dict_get_collect, dict_get_with_headers,
    dict_get_collect.
  unfold copied_addresses in Hin.
  repeat (apply elem_of_cons in Hin as [[= -> ->]|Hin]);
    [..|now apply elem_of_nil in Hin];
    closed_decide; simpl dict_get;
    match goal with |- context [_is_needed self ?a] =>
      destruct (_is_needed self a) end; try reflexivity;
    match goal with |- context [get_item ctx ?k] =>
      destruct (get_item ctx k) end; reflexivity.
Qed.

Lemma extract_copied_witness :
  dict_get [("server.request.headers.no_cookies", PDict [("user-agent", PStr "x")]);
            ("server.request.method", PStr "GET")]
           _Addresses.SERVER_REQUEST_METHOD
  = if _is_needed method_processor _Addresses.SERVER_REQUEST_METHOD
    then get_item scenario_store "http.request.method" else None.
Proof.
  apply (extract_copied method_processor scenario_store _
           (Some [("user-agent", PStr "x")]) None).
  - reflexivity.
  - unfold copied_addresses. do 2 right. left.
Defined.

(** X9: when the extraction returns, the headers kept for the tags are
    the normalized items of the store, and the engine is given those same
    maps under the two header addresses when they are needed: the second
    normalization of the request headers changes nothing. *)
Theorem extract_headers (self : AppSecSpanProcessor) (ctx : gmap string pyval)
    (data : dict pyval) (request_headers response_headers : option (dict pyval)) :
  extract self ctx = Val (data, request_headers, response_headers) ->
  request_headers = normalized_item ctx "http.request.headers" /\
  response_headers = normalized_item ctx "http.response.headers" /\
  dict_get data _Addresses.SERVER_REQUEST_HEADERS_NO_COOKIES
  = (if _is_needed self _Addresses.SERVER_REQUEST_HEADERS_NO_COOKIES
     then PDict <$> request_headers else None) /\
  dict_get data _Addresses.SERVER_RESPONSE_HEADERS_NO_COOKIES
  = (if _is_needed self _Addresses.SERVER_RESPONSE_HEADERS_NO_COOKIES
     then PDict <$> response_headers else None).
Proof.
  intros Hex. destruct (extract_returns _ _ _ _ _ Hex) as (Hrq & Hrs & ->).
  split; [exact Hrq|]. split; [exact Hrs|].
  rewrite !dict_get_with_headers, !dict_get_collect, !dict_get_with_headers,
    !dict_get_collect.
  split; closed_decide; simpl dict_get.
  - destruct (_is_needed self _); [|reflexivity]. now destruct request_headers.
  - destruct (_is_needed self _); [|reflexivity]. now destruct response_headers.
Qed.

Lemma extract_headers_witness :
  Some [("user-agent", PStr "x")] = normalized_item scenario_store "http.request.headers" /\
  None = normalized_item scenario_store "http.response.headers" /\
  dict_get [("server.request.headers.no_cookies", PDict [("user-agent", PStr "x")]);
            ("server.request.method", PStr "GET")]
           _Addresses.SERVER_REQUEST_HEADERS_NO_COOKIES
  = (if _is_needed method_processor _Addresses.SERVER_REQUEST_HEADERS_NO_COOKIES
     then PDict <$> Some [("user-agent", PStr "x")] else None) /\
  dict_get [("server.request.headers.no_cookies", PDict [("user-agent", PStr "x")]);
            ("server.request.method", PStr "GET")]
           _Addresses.SERVER_RESPONSE_HEADERS_NO_COOKIES
  = (if _is_needed method_processor _Addresses.SERVER_RESPONSE_HEADERS_NO_COOKIES
     then PDict <$> None else None).
Proof.
  apply (extract_headers method_processor scenario_store). reflexivity.
Defined.

Lemma collect_keys_distinct (self : AppSecSpanProcessor) (ctx : gmap string pyval)
    (address key : string) (data : dict pyval) :
  NoDup (dict_keys data) -> NoDup (dict_keys (collect self ctx address key data)).
Proof.
  intros Hnd. unfold collect. destruct (_is_needed self address); [|assumption].
  destruct (get_item ctx key); [|assumption].
  apply (dict_set_keys_ok (fun _ => True)); [assumption | | exact I].
  apply Forall_forall. now intros.
Qed.

Lemma with_headers_keys_distinct (self : AppSecSpanProcessor) (address : string)
    (headers : option (dict pyval)) (data : dict pyval) :
  NoDup (dict_keys data) -> NoDup (dict_keys (with_headers self address headers data)).
Proof.
  intros Hnd. unfold with_headers. destruct headers; [|assumption].
  destruct (_is_needed self address); [|assumption].
  apply (dict_set_keys_ok (fun _ => True)); [assumption | | exact I].
  apply Forall_forall. now intros.
Qed.

(** X10: the data for the engine have an entry only under addresses that
    are needed, never hold [None], and hold each address once. *)
Theorem extract_only_needed (self : AppSecSpanProcessor) (ctx : gmap string pyval)
    (data : dict pyval) (request_headers response_headers : option (dict pyval)) :
  extract self ctx = Val (data, request_headers, response_headers) ->
  NoDup (dict_keys data) /\
  forall address v, dict_get data address = Some v ->
                    _is_needed self address = true /\ v <> PNone.
Proof.
  intros Hex. destruct (extract_returns _ _ _ _ _ Hex) as (_ & _ & ->). split.
  - repeat first [ apply with_headers_keys_distinct | apply collect_keys_distinct ].
    apply NoDup_nil_2.
  - intros address v.
    rewrite dict_get_with_headers, !dict_get_collect, dict_get_with_headers,
      dict_get_collect.
    repeat match goal with
           | |- context [decide (?x = address)] =>
               destruct (decide (x = address)) as [<-|?]; closed_decide
           end;
      simpl dict_get; try discriminate;
      match goal with |- context [_is_needed self ?a] =>
        destruct (_is_needed self a) end; try discriminate;
      try match goal with |- context [get_item ctx ?k] =>
            pose proof (get_item_not_None ctx k); destruct (get_item ctx k) end;
      try match goal with |- context [match ?h with Some _ => _ | None => _ end] =>
            destruct h end;
      try discriminate; intros [= <-]; split; congruence.
Qed.

Lemma extract_only_needed_witness :
  NoDup (dict_keys [("server.request.headers.no_cookies", PDict [("user-agent", PStr "x")]);
                    ("server.request.method", PStr "GET")]) /\
  forall address v,
    dict_get [("server.request.headers.no_cookies", PDict [("user-agent", PStr "x")]);
              ("server.request.method", PStr "GET")] address = Some v ->
    _is_needed method_processor address = true /\ v <> PNone.
Proof.
  apply (extract_only_needed method_processor scenario_store _
           (Some [("user-agent", PStr "x")]) None).
  reflexivity.
Defined.

(** X11: the extraction raises exactly when the request headers or the
    response headers of the store are there and are not a [dict], and
    what it raises is [AttributeError]. *)
Theorem extract_raises (self : AppSecSpanProcessor) (ctx : gmap string pyval) (e : exn) :
  extract self ctx = Exn e <->
  e = AttributeError /\
  (not_a_dict ctx "http.request.headers" \/ not_a_dict ctx "http.response.headers").
Proof.
  unfold extract.
  destruct (headers_item_cases ctx "http.request.headers") as [[-> Hrq]|[-> Hrq]].
  - destruct (headers_item_cases ctx "http.response.headers") as [[-> Hrs]|[-> Hrs]].
    + split; [discriminate | tauto].
    + split; [intros [= <-]; tauto | now intros [-> _]].
  - split; [intros [= <-]; tauto | now intros [-> _]].
Qed.

(* ===================================================================== *)
(** ** More on the span processor *)
(* ===================================================================== *)

Lemma append_inj_r (p a b : string) : p +:+ a = p +:+ b -> a = b.
Proof. induction p as [|c p IH]; simpl; [trivial|]. intros [= H]. now apply IH. Qed.

Lemma _normalize_tag_name_inj (kind a b : string) :
  _normalize_tag_name kind a = _normalize_tag_name kind b -> a = b.
Proof. unfold _normalize_tag_name. intros H. now do 2 apply append_inj_r in H. Qed.

(** Header projection writes the tags of the headers that pass the
    allow-list test, and no other tag. *)
Lemma _set_headers_writes (kind : string) (to_collect : gset string)
    (headers : dict pyval) (s : Span) :
  exists s',
    _set_headers kind to_collect headers s = (Val tt, s') /\
    (forall key,
        (forall k, k ∈ dict_keys headers -> lower k ∈ to_collect ->
                   key <> _normalize_tag_name kind k) ->
        meta s' !! key = meta s !! key) /\
    (forall key, is_Some (meta s !! key) -> is_Some (meta s' !! key)).
Proof.
  revert s. induction headers as [|[k v] headers IH]; intros s; simpl.
  - exists s. repeat split; trivial.
  - destruct (bool_decide (lower k ∈ to_collect)) eqn:Htest.
    + apply bool_decide_eq_true in Htest. unfold bind at 1, set_tag.
      destruct (decide (_normalize_tag_name kind k = MANUAL_KEEP_KEY)) as [Heq|Hne].
      * match goal with |- context [_set_headers _ _ _ ?s1] =>
          destruct (IH s1) as (s' & Hrun & Hkeys & Hdom) end.
        exists s'. split; [exact Hrun|]. split.
        -- intros key Hkey. rewrite Hkeys; [reflexivity|].
           intros k' Hin. apply Hkey. now right.
        -- intros key Hsome. now apply Hdom.
      * match goal with |- context [_set_headers _ _ _ ?s1] =>
          destruct (IH s1) as (s' & Hrun & Hkeys & Hdom) end.
        exists s'. split; [exact Hrun|]. split.
        -- intros key Hkey. rewrite Hkeys.
           ++ simpl. apply lookup_insert_ne. intros Heq.
              apply (Hkey k); [left | assumption | now symmetry].
           ++ intros k' Hin. apply Hkey. now right.
        -- intros key Hsome. apply Hdom. simpl.
           rewrite lookup_insert. destruct (decide (_ = key)); [eauto | assumption].
    + unfold bind at 1, ret.
      destruct (IH s) as (s' & Hrun & Hkeys & Hdom).
      exists s'. split; [exact Hrun|]. split; [|assumption].
      intros key Hkey. apply Hkeys. intros k' Hin. apply Hkey. now right.
Qed.

(** Header projection writes the value of each header that passes the
    test, converted to a string, when the names are distinct. *)
Lemma _set_headers_sets (kind : string) (to_collect : gset string)
    (headers : dict pyval) (s : Span) (k : string) (v : pyval) :
  kind = "request" \/ kind = "response" ->
  NoDup (dict_keys headers) ->
  dict_get headers k = Some v ->
  lower k ∈ to_collect ->
  meta (snd (_set_headers kind to_collect headers s)) !! _normalize_tag_name kind k
  = Some (str v).
Proof.
  intros Hkind. revert s. induction headers as [|[k' v'] headers IH];
    intros s Hnd Hget Hin; simpl in *; [discriminate|].
  apply NoDup_cons in Hnd as [Hfresh Hnd].
  destruct (decide (k' = k)) as [->|Hne].
  - injection Hget as ->. rewrite bool_decide_eq_true_2 by assumption.
    unfold bind at 1, set_tag.
    destruct (decide (_normalize_tag_name kind k = MANUAL_KEEP_KEY)) as [Heq|_].
    { now apply header_tag_not_keep in Heq. }
    match goal with |- context [_set_headers _ _ _ ?s1] =>
      destruct (_set_headers_writes kind to_collect headers s1)
        as (s' & -> & Hkeys & _) end.
    simpl. rewrite Hkeys; [apply lookup_insert_eq|].
    intros k0 Hk0 _ Heq. apply _normalize_tag_name_inj in Heq. now subst.
  - destruct (bool_decide (lower k' ∈ to_collect)).
    + unfold bind at 1, set_tag.
      destruct (decide (_normalize_tag_name kind k' = MANUAL_KEEP_KEY));
        now apply IH.
    + unfold bind at 1, ret. now apply IH.
Qed.

(** Header projection for one of the two kinds: it returns, keeps the
    type, the metrics, the retention and the error flag, writes only
    tags that pass the allow-list test, and removes no tag. *)
Lemma _set_headers_effect (kind : string) (to_collect : gset string)
    (headers : option (dict pyval)) (s : Span) :
  kind = "request" \/ kind = "response" ->
  exists s',
    match headers with
    | Some h => _set_headers kind to_collect h
    | None => ret tt
    end s = (Val tt, s') /\
    span_type s' = span_type s /\ metrics s' = metrics s /\
    sampling_priority s' = sampling_priority s /\ error s' = error s /\
    (forall key, ~ projected kind to_collect key -> meta s' !! key = meta s !! key) /\
    (forall key, is_Some (meta s !! key) -> is_Some (meta s' !! key)).
Proof.
  intros Hkind. destruct headers as [h|].
  - destruct (_set_headers_frame kind to_collect h s Hkind)
      as (s1 & Hrun1 & Ht & Hm & Hp & He & _).
    destruct (_set_headers_writes kind to_collect h s) as (s2 & Hrun2 & Hkeys & Hdom).
    assert (s2 = s1) as -> by congruence.
    exists s1. repeat split; try assumption.
    intros key Hkey. apply Hkeys. intros k _ Hin Heq. apply Hkey. now exists k.
  - exists s. repeat split; trivial.
Qed.

(** What a result of the engine writes, in full. *)
Lemma apply_result_effect (res : option string)
    (request_headers response_headers : option (dict pyval)) (s : Span) :
  exists s',
    apply_result res request_headers response_headers s = (Val tt, s') /\
    span_type s' = span_type s /\ metrics s' = metrics s /\ error s' = error s /\
    (forall key,
        key ∉ match_tags ->
        ~ projected "request" _COLLECTED_REQUEST_HEADERS key ->
        ~ projected "response" _COLLECTED_RESPONSE_HEADERS key ->
        meta s' !! key = meta s !! key) /\
    (forall key, is_Some (meta s !! key) -> is_Some (meta s' !! key)).
Proof.
  destruct res as [res|]; [|exists s; repeat split; trivial].
  unfold apply_result.
  destruct (_set_headers_effect "request" _COLLECTED_REQUEST_HEADERS request_headers s)
    as (s1 & Hrun1 & Ht1 & Hm1 & _ & He1 & Hk1 & Hd1); [now left|].
  destruct (_set_headers_effect "response" _COLLECTED_RESPONSE_HEADERS response_headers s1)
    as (s2 & Hrun2 & Ht2 & Hm2 & _ & He2 & Hk2 & Hd2); [now right|].
  rewrite (bind_val _ _ _ _ _ Hrun1), (bind_val _ _ _ _ _ Hrun2).
  unfold bind, _set_str_tag, set_tag, get_tag, ret. simpl.
  assert (Hfixed : forall key, key ∉ match_tags ->
            key <> "appsec.event" /\ key <> "_dd.appsec.json" /\ key <> ORIGIN_KEY).
  { intros key Hkey. unfold match_tags in Hkey.
    rewrite !not_elem_of_cons in Hkey. tauto. }
  destruct (<["_dd.appsec.json":=triggers res]> (<["appsec.event":="true"]> (meta s2))
              !! ORIGIN_KEY) eqn:Horigin;
    (eexists; split; [reflexivity|]; simpl; repeat split; try congruence).
  - intros key Hkey Hrq Hrs. destruct (Hfixed key Hkey) as (H1 & H2 & _).
    rewrite !lookup_insert_ne by congruence. now rewrite Hk2, Hk1.
  - intros key Hsome. apply Hd1, Hd2 in Hsome.
    rewrite !lookup_insert. repeat case_decide; eauto.
  - intros key Hkey Hrq Hrs. destruct (Hfixed key Hkey) as (H1 & H2 & H3).
    rewrite !lookup_insert_ne by congruence. now rewrite Hk2, Hk1.
  - intros key Hsome. apply Hd1, Hd2 in Hsome.
    rewrite !lookup_insert. repeat case_decide; eauto.
Qed.

(** [on_span_finish] in full: the outcome, and what the span keeps. *)
Lemma on_span_finish_effect (self : AppSecSpanProcessor) (ctx : gmap string pyval)
    (s : Span) :
  span_type s = Some WEB ->
  exists s',
    snd (on_span_finish self ctx s) = s' /\
    span_type s' = span_type s /\
    metrics s' = <["_dd.appsec.enabled" := one_point_zero]> (metrics s) /\
    error s' = error s /\
    (forall key,
        key <> "_dd.runtime_family" -> key ∉ match_tags ->
        ~ projected "request" _COLLECTED_REQUEST_HEADERS key ->
        ~ projected "response" _COLLECTED_RESPONSE_HEADERS key ->
        meta s' !! key = meta s !! key) /\
    (forall key, is_Some (meta s !! key) -> is_Some (meta s' !! key)).
Proof.
  intros Hweb. rewrite on_span_finish_web by assumption.
  assert (Hbase : exists s', s' = baseline s /\
    span_type s' = span_type s /\
    metrics s' = <["_dd.appsec.enabled" := one_point_zero]> (metrics s) /\
    error s' = error s /\
    (forall key, key <> "_dd.runtime_family" -> key ∉ match_tags ->
        ~ projected "request" _COLLECTED_REQUEST_HEADERS key ->
        ~ projected "response" _COLLECTED_RESPONSE_HEADERS key ->
        meta s' !! key = meta s !! key) /\
    (forall key, is_Some (meta s !! key) -> is_Some (meta s' !! key))).
  { exists (baseline s). repeat split.
    - intros key Hkey _ _ _. simpl. now rewrite lookup_insert_ne.
    - intros key Hsome. simpl. rewrite lookup_insert. case_decide; eauto. }
  destruct Hbase as (b & -> & Hbt & Hbm & Hbe & Hbk & Hbd).
  destruct (extract self ctx) as [[[data rq] rs]|e]; [|now exists (baseline s)].
  destruct (run_engine self data) as [res|e]; [|now exists (baseline s)].
  destruct (apply_result_effect res rq rs (baseline s))
    as (s' & -> & Ht & Hm & He & Hk & Hd).
  exists s'. simpl snd. split; [reflexivity|]. repeat split; try congruence.
  - intros key H1 H2 H3 H4. rewrite Hk by assumption. now apply Hbk.
  - intros key Hsome. now apply Hd, Hbd.
Qed.

(** X12: for a span that is not a WEB span, [on_span_finish] returns and
    leaves the span as it is, for every processor and every store. *)
Theorem on_span_finish_not_web (self : AppSecSpanProcessor) (ctx : gmap string pyval)
    (s : Span) :
  span_type s <> Some WEB -> on_span_finish self ctx s = (Val tt, s).
Proof.
  intros Hty. unfold on_span_finish, bind, get_span_type.
  now rewrite bool_decide_eq_false_2.
Qed.

Lemma on_span_finish_not_web_witness :
  on_span_finish matching_processor forwarded_store query_span = (Val tt, query_span).
Proof. apply on_span_finish_not_web. discriminate. Defined.

(** X13: on a match the call returns, and the span carries the event
    tag ["true"], the result of the engine in its envelope, and the
    retention forced to keep. *)
Theorem on_span_finish_match (self : AppSecSpanProcessor) (ctx : gmap string pyval)
    (s : Span) (data : dict pyval) (request_headers response_headers : option (dict pyval))
    (res : string) :
  span_type s = Some WEB ->
  extract self ctx = Val (data, request_headers, response_headers) ->
  run_engine self data = Val (Some res) ->
  fst (on_span_finish self ctx s) = Val tt /\
  meta (snd (on_span_finish self ctx s)) !! "appsec.event" = Some "true" /\
  meta (snd (on_span_finish self ctx s)) !! "_dd.appsec.json" = Some (triggers res) /\
  sampling_priority (snd (on_span_finish self ctx s)) = Some USER_KEEP.
Proof.
  intros Hweb Hex Hrun. rewrite on_span_finish_web, Hex, Hrun by assumption.
  destruct (apply_result_match res request_headers response_headers (baseline s))
    as (s' & -> & _ & _ & Hevent & Hjson & Hkeep & _).
  now repeat split.
Qed.

Lemma on_span_finish_match_witness :
  fst (on_span_finish matching_processor forwarded_store fresh_web_span) = Val tt /\
  meta (snd (on_span_finish matching_processor forwarded_store fresh_web_span))
    !! "appsec.event" = Some "true" /\
  meta (snd (on_span_finish matching_processor forwarded_store fresh_web_span))
    !! "_dd.appsec.json" = Some (triggers "[{'rule': 'R1'}]") /\
  sampling_priority (snd (on_span_finish matching_processor forwarded_store fresh_web_span))
  = Some USER_KEEP.
Proof.
  eapply (on_span_finish_match matching_processor forwarded_store fresh_web_span);
    reflexivity.
Defined.

(** X14: on a WEB span, whatever the store holds and whatever the engine
    does, the call writes one metric, the detection-enabled one, keeps the
    type and the error flag of the span, and removes no tag. *)
Theorem on_span_finish_metrics (self : AppSecSpanProcessor) (ctx : gmap string pyval)
    (s : Span) :
  span_type s = Some WEB ->
  metrics (snd (on_span_finish self ctx s))
  = <["_dd.appsec.enabled" := one_point_zero]> (metrics s) /\
  span_type (snd (on_span_finish self ctx s)) = span_type s /\
  error (snd (on_span_finish self ctx s)) = error s /\
  forall key, is_Some (meta s !! key) ->
              is_Some (meta (snd (on_span_finish self ctx s)) !! key).
Proof.
  intros Hweb.
  destruct (on_span_finish_effect self ctx s Hweb) as (s' & -> & Ht & Hm & He & _ & Hd).
  now repeat split.
Qed.

Lemma on_span_finish_metrics_witness :
  metrics (snd (on_span_finish no_engine broken_store fresh_web_span))
  = <["_dd.appsec.enabled" := one_point_zero]> (metrics fresh_web_span) /\
  span_type (snd (on_span_finish no_engine broken_store fresh_web_span))
  = span_type fresh_web_span /\
  error (snd (on_span_finish no_engine broken_store fresh_web_span))
  = error fresh_web_span /\
  forall key, is_Some (meta fresh_web_span !! key) ->
              is_Some (meta (snd (on_span_finish no_engine broken_store fresh_web_span))
                         !! key).
Proof. apply on_span_finish_metrics. reflexivity. Defined.

(** X15: the only tags that [on_span_finish] writes are the
    runtime-family tag, the event, result and origin tags, and tags of
    headers that pass the allow-list test of their kind; every other tag
    is as it was. *)
Theorem on_span_finish_writes_only (self : AppSecSpanProcessor)
    (ctx : gmap string pyval) (s : Span) (key : string) :
  key <> "_dd.runtime_family" ->
  key ∉ match_tags ->
  ~ projected "request" _COLLECTED_REQUEST_HEADERS key ->
  ~ projected "response" _COLLECTED_RESPONSE_HEADERS key ->
  meta (snd (on_span_finish self ctx s)) !! key = meta s !! key.
Proof.
  intros H1 H2 H3 H4. destruct (decide (span_type s = Some WEB)) as [Hweb|Hty].
  - destruct (on_span_finish_effect self ctx s Hweb) as (s' & -> & _ & _ & _ & Hk & _).
    now apply Hk.
  - unfold on_span_finish, bind, get_span_type.
    now rewrite bool_decide_eq_false_2.
Qed.

(** No allow-list lets a cookie header through. *)
Lemma cookie_not_projected (kind : string) (to_collect : gset string) (name : string) :
  to_collect = _COLLECTED_REQUEST_HEADERS \/ to_collect = _COLLECTED_RESPONSE_HEADERS ->
  redacted (lower name) ->
  ~ projected kind to_collect (_normalize_tag_name kind name).
Proof.
  intros Hset Hname (k & Hin & Heq). apply _normalize_tag_name_inj in Heq. subst k.
  assert (Hb : bool_decide (lower name ∈ to_collect) = true)
    by now apply bool_decide_eq_true_2.
  destruct Hset as [->| ->], Hname as [Hname|Hname]; rewrite Hname in Hb;
    vm_compute in Hb; discriminate.
Qed.

(** X16: no cookie reaches a tag: for a header whose lower-cased name is
    ["cookie"] or ["set-cookie"], the request tag and the response tag of
    that name are after the call what they were before it. *)
Theorem on_span_finish_no_cookie_tag (self : AppSecSpanProcessor)
    (ctx : gmap string pyval) (s : Span) (kind name : string) :
  kind = "request" \/ kind = "response" ->
  redacted (lower name) ->
  meta (snd (on_span_finish self ctx s)) !! _normalize_tag_name kind name
  = meta s !! _normalize_tag_name kind name.
Proof.
  intros Hkind Hname.
  destruct (decide (span_type s = Some WEB)) as [Hweb|Hty].
  - destruct (on_span_finish_effect self ctx s Hweb) as (s' & -> & _ & _ & _ & Hk & _).
    assert (Hother : forall kind' to_collect,
      kind' <> kind -> (kind' = "request" \/ kind' = "response") ->
      ~ projected kind' to_collect (_normalize_tag_name kind name)).
    { intros kind' to_collect Hne Hkind' (k & _ & Heq).
      destruct Hkind as [->| ->], Hkind' as [->| ->]; try congruence;
        discriminate Heq. }
    apply Hk.
    + destruct Hkind as [->| ->]; discriminate.
    + unfold match_tags. rewrite !not_elem_of_cons.
      destruct Hkind as [->| ->]; repeat split; try discriminate; apply not_elem_of_nil.
    + destruct Hkind as [->| ->].
      * apply cookie_not_projected; [now left | assumption].
      * apply (Hother "request"); [discriminate | now left].
    + destruct Hkind as [->| ->].
      * apply (Hother "response"); [discriminate | now right].
      * apply cookie_not_projected; [now right | assumption].
  - unfold on_span_finish, bind, get_span_type.
    now rewrite bool_decide_eq_false_2.
Qed.

Lemma on_span_finish_no_cookie_tag_witness :
  meta (snd (on_span_finish matching_processor forwarded_store cookie_tagged_span))
    !! _normalize_tag_name "request" "cookie"
  = Some "kept".
Proof.
  rewrite (on_span_finish_no_cookie_tag matching_processor forwarded_store
             cookie_tagged_span "request" "cookie"); [reflexivity | now left | now left].
Defined.

Lemma on_span_finish_writes_only_witness :
  meta (snd (on_span_finish matching_processor forwarded_store query_span))
    !! "opensearch.method"
  = meta query_span !! "opensearch.method" /\
  meta (snd (on_span_finish matching_processor forwarded_store cookie_tagged_span))
    !! "request.headers.cookie"
  = Some "kept".
Proof.
  assert (Hfixed : forall key : string,
    key = "opensearch.method" \/ key = "request.headers.cookie" ->
    key <> "_dd.runtime_family" /\ (key ∉ match_tags) /\
    ~ projected "response" _COLLECTED_RESPONSE_HEADERS key).
  { intros key Hkey. split; [destruct Hkey as [->| ->]; discriminate|]. split.
    - unfold match_tags. rewrite !not_elem_of_cons.
      destruct Hkey as [->| ->]; repeat split; try discriminate; apply not_elem_of_nil.
    - intros (k & _ & Heq). destruct Hkey as [->| ->]; discriminate Heq. }
  split.
  - destruct (Hfixed "opensearch.method") as (H1 & H2 & H4); [now left|].
    apply on_span_finish_writes_only; try assumption.
    intros (k & _ & Heq). discriminate Heq.
  - destruct (Hfixed "request.headers.cookie") as (H1 & H2 & H4); [now right|].
    rewrite on_span_finish_writes_only; try assumption; [reflexivity|].
    intros (k & Hin & Heq).
    apply (_normalize_tag_name_inj "request" "cookie" k) in Heq. subst k.
    assert (Hb : bool_decide (lower "cookie" ∈ _COLLECTED_REQUEST_HEADERS) = true)
      by now apply bool_decide_eq_true_2.
    vm_compute in Hb. discriminate.
Defined.

(** The tags of the two kinds never meet, nor do they meet the tags of a
    match. *)
Lemma request_tag_not_response (to_collect : gset string) (k : string) :
  ~ projected "response" to_collect (_normalize_tag_name "request" k).
Proof. intros (k' & _ & Heq). discriminate Heq. Qed.

Lemma header_tag_not_match_tag (kind k : string) :
  kind = "request" \/ kind = "response" ->
  _normalize_tag_name kind k <> "appsec.event" /\
  _normalize_tag_name kind k <> "_dd.appsec.json" /\
  _normalize_tag_name kind k <> ORIGIN_KEY.
Proof. intros [->| ->]; repeat split; discriminate. Qed.

(** The tags after the last lines of a match, at a header tag. *)
Lemma match_tail_keeps_header_tag (res : string) (kind k : string) (s : Span) :
  kind = "request" \/ kind = "response" ->
  meta (snd ((_set_str_tag "appsec.event" "true" ;;
              _set_str_tag "_dd.appsec.json" (triggers res) ;;
              set_tag MANUAL_KEEP_KEY PNone ;;
              origin <- get_tag ORIGIN_KEY ;;
              match origin with
              | None => _set_str_tag ORIGIN_KEY "appsec"
              | Some _ => ret tt
              end) s)) !! _normalize_tag_name kind k
  = meta s !! _normalize_tag_name kind k.
Proof.
  intros Hkind. destruct (header_tag_not_match_tag kind k Hkind) as (H1 & H2 & H3).
  unfold bind, _set_str_tag, set_tag, get_tag, ret. simpl.
  destruct (<["_dd.appsec.json":=triggers res]> (<["appsec.event":="true"]> (meta s))
              !! ORIGIN_KEY); simpl;
    now rewrite !lookup_insert_ne by congruence.
Qed.

Lemma normalized_item_ok (ctx : gmap string pyval) (key : string) (h : dict pyval) :
  normalized_item ctx key = Some h -> NoDup (dict_keys h) /\ Forall key_ok (dict_keys h).
Proof.
  unfold normalized_item. destruct (get_item ctx key) as [[]|]; try discriminate.
  intros [= <-]. apply _transform_headers_ok.
Qed.

(** X17: on a match, each request header of the normalized map whose
    name is in the request allow-list is on the span as the tag of its
    name, with its value converted to a string. *)
Theorem on_span_finish_projects_request (self : AppSecSpanProcessor)
    (ctx : gmap string pyval) (s : Span) (data h : dict pyval)
    (response_headers : option (dict pyval)) (res k : string) (v : pyval) :
  span_type s = Some WEB ->
  extract self ctx = Val (data, Some h, response_headers) ->
  run_engine self data = Val (Some res) ->
  dict_get h k = Some v ->
  k ∈ _COLLECTED_REQUEST_HEADERS ->
  meta (snd (on_span_finish self ctx s)) !! _normalize_tag_name "request" k
  = Some (str v).
Proof.
  intros Hweb Hex Hrun Hget Hin.
  destruct (extract_returns _ _ _ _ _ Hex) as (Hrq & _ & _).
  destruct (normalized_item_ok _ _ _ (eq_sym Hrq)) as [Hnd Hok].
  assert (Hlow : lower k = k).
  { rewrite Forall_forall in Hok. apply (Hok k). eapply dict_get_Some_in, Hget. }
  rewrite on_span_finish_web, Hex, Hrun by assumption. unfold apply_result.
  pose proof (_set_headers_sets "request" _COLLECTED_REQUEST_HEADERS h (baseline s) k v
                (or_introl eq_refl) Hnd Hget) as Hset.
  rewrite Hlow in Hset. specialize (Hset Hin).
  destruct (_set_headers_frame "request" _COLLECTED_REQUEST_HEADERS h (baseline s))
    as (s1 & Hrun1 & _); [now left|].
  rewrite Hrun1 in Hset. simpl in Hset. rewrite (bind_val _ _ _ _ _ Hrun1).
  destruct (_set_headers_effect "response" _COLLECTED_RESPONSE_HEADERS
              response_headers s1) as (s2 & Hrun2 & _ & _ & _ & _ & Hk2 & _);
    [now right|].
  rewrite (bind_val _ _ _ _ _ Hrun2).
  rewrite match_tail_keeps_header_tag by now left.
  rewrite Hk2; [exact Hset | apply request_tag_not_response].
Qed.

Lemma on_span_finish_projects_request_witness :
  meta (snd (on_span_finish matching_processor forwarded_store fresh_web_span))
    !! _normalize_tag_name "request" "x-forwarded-for"
  = Some "['a', 'b']".
Proof.
  eapply (on_span_finish_projects_request matching_processor forwarded_store
            fresh_web_span _ _ _ _ "x-forwarded-for" (PList [PStr "a"; PStr "b"]));
    reflexivity.
Defined.

(** X18: on a match, each response header of the normalized map whose
    name passes the test against the response allow-list of the code is
    on the span as the tag of its name, with its value converted to a
    string. *)
Theorem on_span_finish_projects_response (self : AppSecSpanProcessor)
    (ctx : gmap string pyval) (s : Span) (data h : dict pyval)
    (request_headers : option (dict pyval)) (res k : string) (v : pyval) :
  span_type s = Some WEB ->
  extract self ctx = Val (data, request_headers, Some h) ->
  run_engine self data = Val (Some res) ->
  dict_get h k = Some v ->
  k ∈ _COLLECTED_RESPONSE_HEADERS ->
  meta (snd (on_span_finish self ctx s)) !! _normalize_tag_name "response" k
  = Some (str v).
Proof.
  intros Hweb Hex Hrun Hget Hin.
  destruct (extract_returns _ _ _ _ _ Hex) as (_ & Hrs & _).
  destruct (normalized_item_ok _ _ _ (eq_sym Hrs)) as [Hnd Hok].
  assert (Hlow : lower k = k).
  { rewrite Forall_forall in Hok. apply (Hok k). eapply dict_get_Some_in, Hget. }
  rewrite on_span_finish_web, Hex, Hrun by assumption. unfold apply_result.
  destruct (_set_headers_effect "request" _COLLECTED_REQUEST_HEADERS
              request_headers (baseline s)) as (s1 & Hrun1 & _); [now left|].
  rewrite (bind_val _ _ _ _ _ Hrun1).
  pose proof (_set_headers_sets "response" _COLLECTED_RESPONSE_HEADERS h s1 k v
                (or_intror eq_refl) Hnd Hget) as Hset.
  rewrite Hlow in Hset. specialize (Hset Hin).
  destruct (_set_headers_frame "response" _COLLECTED_RESPONSE_HEADERS h s1)
    as (s2 & Hrun2 & _); [now right|].
  rewrite Hrun2 in Hset. simpl in Hset. rewrite (bind_val _ _ _ _ _ Hrun2).
  now rewrite match_tail_keeps_header_tag by now right.
Qed.

Lemma on_span_finish_projects_response_witness :
  meta (snd (on_span_finish matching_processor encoded_response fresh_web_span))
    !! _normalize_tag_name "response" "content-type"
  = Some "text/html".
Proof.
  eapply (on_span_finish_projects_response matching_processor encoded_response
            fresh_web_span _ _ _ _ "content-type" (PStr "text/html"));
    reflexivity.
Defined.

(* ===================================================================== *)
(** ** More on the OpenSearch wrapper *)
(* ===================================================================== *)



Lemma try_except_pass_val (body : M unit) (s s' : Span) :
  body s = (Val tt, s') -> try_except_pass body s = (Val tt, s').
Proof. unfold try_except_pass. now intros ->. Qed.



(** X21: when the body is a [dict] that has no [took], or one that is
    false, zero included, the wrapper writes no metric. *)
Theorem perform_request_no_took (result : pyval) (s : Span) (d : dict pyval) :
  (status_and_data result).2 = PDict d ->
  truthy (default PNone (dict_get d "took")) = false ->
  metrics (snd (_perform_request (Val result) s)) = metrics s.
Proof.
  intros Hdata Hfalsy. rewrite _perform_request_returned, Hdata.
  assert (Hrun : extract_took (PDict d) s = (Val tt, s)).
  { rewrite extract_took_unfold. unfold py_get. now rewrite Hfalsy. }
  rewrite (try_except_pass_val _ _ _ Hrun). simpl snd.
  match goal with |- context [tag_status ?st ?s1] =>
    destruct (tag_status_frame st s1) as (s2 & Hrun2 & Hmetrics & _) end.
  rewrite Hrun2. simpl snd. now rewrite Hmetrics.
Qed.

Lemma perform_request_no_took_witness :
  metrics (snd (_perform_request (Val instant_response) query_span))
  = metrics query_span.
Proof.
  eapply (perform_request_no_took instant_response query_span); reflexivity.
Defined.

(** X22: after a call that returned, the tags of the span are as they
    were, except that a result that is a pair with a true first component
    leaves that component, converted to a string, as the status tag. *)
Theorem perform_request_status (result : pyval) (s : Span) :
  (truthy (status_and_data result).1 = true ->
   meta (snd (_perform_request (Val result) s))
   = <[STATUS_CODE := str (status_and_data result).1]> (meta s)) /\
  (truthy (status_and_data result).1 = false ->
   meta (snd (_perform_request (Val result) s)) = meta s).
Proof.
  rewrite _perform_request_returned.
  destruct (try_except_pass_extract_took (status_and_data result).2 s)
    as (s1 & -> & Hmeta & _). simpl snd. unfold tag_status.
  split; intros ->; simpl; now rewrite Hmeta.
Qed.

Lemma perform_request_status_witness :
  meta (snd (_perform_request (Val timed_response) query_span))
  = <[STATUS_CODE := "200"]> (meta query_span) /\
  meta (snd (_perform_request (Val instant_response) query_span)) = meta query_span.
Proof.
  split.
  - apply (proj1 (perform_request_status timed_response query_span)). reflexivity.
  - apply (proj2 (perform_request_status instant_response query_span)). reflexivity.
Defined.

(* ===================================================================== *)
(** ** Patching and unpatching *)
(* ===================================================================== *)


Lemma run_patch_call_keeps (c : patch_call) (opensearch : os_module) :
  wrapped_once_iff_patched opensearch ->
  wrapped_once_iff_patched (run_patch_call c opensearch).
Proof.
  unfold wrapped_once_iff_patched, _patch, _unpatch, patched.
  destruct c, opensearch as [[[]|] w u p]; simpl; lia.
Qed.

(** X24: whatever calls of [_patch] and [_unpatch] are made on a module
    whose transport is wrapped once if it is marked patched and not at
    all if it is not, in whatever order, it stays so: the transport never
    carries two wrappers, and it is never unwrapped when it carries
    none. *)
Theorem patch_calls_keep_one_wrapper (cs : list patch_call) (opensearch : os_module) :
  wrapped_once_iff_patched opensearch ->
  wrapped_once_iff_patched (run_patch_calls cs opensearch).
Proof.
  unfold run_patch_calls. revert opensearch.
  induction cs as [|c cs IH]; intros opensearch Hinv; simpl; [assumption|].
  apply IH. now apply run_patch_call_keeps.
Qed.

Lemma patch_calls_keep_one_wrapper_witness :
  wrapped_once_iff_patched
    (run_patch_calls [Patch; Patch; Unpatch; Unpatch; Patch] fresh_module).
Proof. apply patch_calls_keep_one_wrapper. reflexivity. Defined.

Lemma for_es_modules_returns (body : os_module -> os_module) (names : list string)
    (modules : gmap string import_entry) :
  (forall name e, name ∈ names -> modules !! name <> Some (Broken e)) ->
  fst (for_es_modules body names modules) = Val tt.
Proof.
  revert modules. induction names as [|name names IH]; intros modules Hok; simpl;
    [reflexivity|].
  destruct (modules !! name) as [[m|e]|] eqn:Hname.
  - apply IH. intros name' e Hin. rewrite lookup_insert. case_decide; [discriminate|].
    apply Hok. now right.
  - exfalso. apply (Hok name e); [left | assumption].
  - apply IH. intros name' e Hin. apply Hok. now right.
Qed.

(** The table after the loop, at a name: the body applied once when the
    name is one of the names and the import finds a module, given that
    the names are distinct and no import raises. *)
Lemma for_es_modules_lookup (body : os_module -> os_module) (names : list string)
    (modules : gmap string import_entry) (name : string) :
  NoDup names ->
  (forall name e, name ∈ names -> modules !! name <> Some (Broken e)) ->
  snd (for_es_modules body names modules) !! name =
  match modules !! name with
  | Some (Importable m) => Some (Importable (if decide (name ∈ names) then body m else m))
  | o => o
  end.
Proof.
  revert modules. induction names as [|n names IH]; intros modules Hnd Hok; simpl.
  - destruct (modules !! name) as [[m|e]|]; try reflexivity;
      now rewrite decide_False by apply not_elem_of_nil.
  - apply NoDup_cons in Hnd as [Hfresh Hnd].
    assert (Hcons : forall m : os_module, name <> n ->
              (if decide (name ∈ n :: names) then body m else m)
              = (if decide (name ∈ names) then body m else m)).
    { intros m Hne. destruct (decide (name ∈ names)) as [Hin|Hout].
      - rewrite decide_True by now right. reflexivity.
      - rewrite decide_False; [reflexivity|].
        rewrite not_elem_of_cons. now split. }
    destruct (modules !! n) as [[m|e]|] eqn:Hn.
    + rewrite IH; [|assumption|].
      * rewrite lookup_insert. destruct (decide (n = name)) as [->|Hne].
        -- rewrite Hn. rewrite (decide_False (P := name ∈ names)) by assumption.
           rewrite decide_True by left. reflexivity.
        -- destruct (modules !! name) as [[m'|e']|]; try reflexivity.
           rewrite Hcons by congruence. reflexivity.
      * intros name' e Hin. rewrite lookup_insert.
        destruct (decide (n = name')); [discriminate|]. apply Hok. now right.
    + exfalso. apply (Hok n e); [left | assumption].
    + rewrite IH; [|assumption|intros name' e Hin; apply Hok; now right].
      destruct (modules !! name) as [[m'|e']|] eqn:Hname; try reflexivity.
      rewrite Hcons; [reflexivity|]. intros ->. congruence.
Qed.

Lemma module_names_distinct : NoDup module_names.
Proof.
  unfold module_names. apply NoDup_cons. split.
  - rewrite list_elem_of_singleton. discriminate.
  - apply NoDup_singleton.
Qed.

(** X25: when no import raises anything but [ImportError], [patch]
    returns, a second [patch] changes nothing more, and a name that
    cannot be imported stays so: with neither module installed, [patch]
    does nothing and raises nothing. *)
Theorem patch_twice (modules : gmap string import_entry) :
  (forall name e, name ∈ module_names -> modules !! name <> Some (Broken e)) ->
  fst (patch modules) = Val tt /\
  patch (snd (patch modules)) = patch modules /\
  (forall name, modules !! name = None -> snd (patch modules) !! name = None).
Proof.
  intros Hok. unfold patch.
  assert (Hlookup : forall name,
    snd (for_es_modules _patch module_names modules) !! name =
    match modules !! name with
    | Some (Importable m) =>
        Some (Importable (if decide (name ∈ module_names) then _patch m else m))
    | o => o
    end).
  { intros name. apply for_es_modules_lookup; [apply module_names_distinct | exact Hok]. }
  assert (Hok' : forall name e, name ∈ module_names ->
            snd (for_es_modules _patch module_names modules) !! name <> Some (Broken e)).
  { intros name e Hin. rewrite Hlookup.
    specialize (Hok name e Hin). destruct (modules !! name) as [[m|e']|]; congruence. }
  split; [now apply for_es_modules_returns|]. split.
  - pose proof (for_es_modules_returns _patch module_names modules Hok) as H1.
    pose proof (for_es_modules_returns _patch module_names _ Hok') as H2.
    apply injective_projections; [congruence|].
    apply map_eq. intros name.
    rewrite for_es_modules_lookup by (apply module_names_distinct || exact Hok').
    rewrite Hlookup. destruct (modules !! name) as [[m|e']|]; try reflexivity.
    destruct (decide (name ∈ module_names)); [|reflexivity].
    do 2 f_equal. unfold _patch, patched. now destruct m as [[[]|] w u p].
  - intros name Hnone. now rewrite Hlookup, Hnone.
Qed.

Lemma patch_twice_witness :
  fst (patch installed) = Val tt /\
  patch (snd (patch installed)) = patch installed /\
  (forall name, installed !! name = None -> snd (patch installed) !! name = None).
Proof.
  apply patch_twice. intros name e Hin. unfold module_names in Hin.
  apply elem_of_cons in Hin as [->|Hin];
    [|apply list_elem_of_singleton in Hin as ->]; discriminate.
Defined.



(* ===================================================================== *)
(** ** Random span attributes *)
(* ===================================================================== *)

Section RandomFacts.

Variable randbelow : nat -> nat -> nat.
Hypothesis randbelow_lt : forall i n, 0 < n -> randbelow i n < n.

Lemma random_choice_in {A : Type} (seq : list A) (i : nat) :
  seq <> [] ->
  exists x, random_choice randbelow seq i = (Val x, S i) /\ x ∈ seq.
Proof.
  intros Hne. unfold random_choice. destruct seq as [|a seq]; [congruence|].
  destruct (lookup_lt_is_Some_2 (a :: seq) (randbelow i (length (a :: seq))))
    as [x Hx]; [apply randbelow_lt; simpl; lia|].
  rewrite Hx. exists x. split; [reflexivity|].
  eapply list_elem_of_lookup_2, Hx.
Qed.

Lemma choices_spec (n : nat) (chars : list ascii) (i : nat) :
  chars <> [] ->
  exists cs, choices randbelow n chars i = (Val cs, i + n) /\
             length cs = n /\ forall c, c ∈ cs -> c ∈ chars.
Proof.
  intros Hne. revert i. induction n as [|n IH]; intros i; simpl.
  - exists []. rewrite Nat.add_0_r. repeat split. intros c Hc.
    now apply elem_of_nil in Hc.
  - destruct (random_choice_in chars i Hne) as (c & -> & Hc).
    destruct (IH (S i)) as (cs & -> & Hlen & Hcs).
    exists (c :: cs). split; [f_equal; lia|]. split; [simpl; lia|].
    intros c' Hc'. apply elem_of_cons in Hc' as [->|Hc']; auto.
Qed.

Lemma string_of_list_ascii_length (cs : list ascii) :
  String.length (string_of_list_ascii cs) = length cs.
Proof. induction cs as [|c cs IH]; simpl; congruence. Qed.

Lemma _rands_drawn (size : Z) (chars : string) (i : nat) :
  chars <> "" ->
  exists s, _rands randbelow size chars i = (Val s, i + Z.to_nat size) /\
            drawn_from chars size s.
Proof.
  intros Hne. unfold _rands.
  destruct (choices_spec (Z.to_nat size) (list_ascii_of_string chars) i)
    as (cs & -> & Hlen & Hcs).
  { destruct chars; [congruence | discriminate]. }
  exists (string_of_list_ascii cs). split; [reflexivity|]. split.
  - now rewrite string_of_list_ascii_length.
  - now rewrite list_ascii_of_string_of_list_ascii.
Qed.

Lemma rands_list_spec (n : nat) (size : Z) (i : nat) :
  exists l, rands_list randbelow n size i = (Val l, i + n * Z.to_nat size) /\
            length l = n /\ Forall (drawn_from uppercase_and_digits size) l.
Proof.
  revert i. induction n as [|n IH]; intros i; simpl.
  - exists []. rewrite Nat.add_0_r. now repeat split.
  - destruct (_rands_drawn size uppercase_and_digits i) as (s & -> & Hs);
      [discriminate|].
    destruct (IH (i + Z.to_nat size)) as (l & -> & Hlen & Hl).
    exists (s :: l). split; [f_equal; lia|]. split; [simpl; lia|].
    now constructor.
Qed.

End RandomFacts.

(** X27: with a non-empty alphabet, [_rands] returns a string of [size]
    characters, none for a negative [size], each of them from the
    alphabet, and has made one draw for each. *)
Theorem rands_length_and_alphabet (randbelow : nat -> nat -> nat)
    (size : Z) (chars : string) (i : nat) :
  (forall i n, 0 < n -> randbelow i n < n) ->
  chars <> "" ->
  exists s, _rands randbelow size chars i = (Val s, i + Z.to_nat size) /\
            String.length s = Z.to_nat size /\
            forall c, c ∈ list_ascii_of_string s -> c ∈ list_ascii_of_string chars.
Proof. intros Hrand Hne. now apply _rands_drawn. Qed.

Lemma counting_lt (i n : nat) : 0 < n -> counting i n < n.
Proof. intros Hn. unfold counting. apply Nat.mod_upper_bound. lia. Qed.

Lemma rands_length_and_alphabet_witness :
  exists s, _rands counting 6 uppercase_and_digits 30 = (Val s, 30 + Z.to_nat 6) /\
            String.length s = Z.to_nat 6 /\
            forall c, c ∈ list_ascii_of_string s ->
                      c ∈ list_ascii_of_string uppercase_and_digits.
Proof.
  apply (rands_length_and_alphabet counting 6 uppercase_and_digits 30).
  - exact counting_lt.
  - discriminate.
Defined.

(** X28: with an empty alphabet, [_rands] raises [IndexError] without
    a draw when [size] is positive, and returns the empty string when it
    is not. *)
Theorem rands_empty_alphabet (randbelow : nat -> nat -> nat) (size : Z) (i : nat) :
  _rands randbelow size "" i
  = if (0 <? size)%Z then (Exn (OtherException "IndexError"), i) else (Val "", i).
Proof.
  unfold _rands. destruct (0 <? size)%Z eqn:Hsize.
  - apply Z.ltb_lt in Hsize. destruct (Z.to_nat size) eqn:Hn; [lia|]. reflexivity.
  - apply Z.ltb_ge in Hsize. now replace (Z.to_nat size) with 0 by lia.
Qed.

Lemma remove_dups_length (l : list string) : length (remove_dups l) <= length l.
Proof.
  induction l as [|x l IH]; simpl; [lia|].
  destruct (decide_rel elem_of x l); simpl; lia.
Qed.

(** X29: [_random_values] returns, having made [k] times [size] draws,
    a list of distinct strings, at most [k] of them and at least one
    when [k] is positive, each of [size] characters that are upper-case
    letters or digits. *)
Theorem random_values_distinct (randbelow : nat -> nat -> nat)
    (set_order : list string -> list string) (k size : Z) (i : nat) :
  (forall i n, 0 < n -> randbelow i n < n) ->
  (forall l, set_order l ≡ₚ remove_dups l) ->
  exists l,
    _random_values randbelow set_order k size i
    = (Val l, i + Z.to_nat k * Z.to_nat size) /\
    NoDup l /\ length l <= Z.to_nat k /\ ((0 < k)%Z -> l <> []) /\
    Forall (fun s => String.length s = Z.to_nat size /\
                     forall c, c ∈ list_ascii_of_string s ->
                               c ∈ list_ascii_of_string uppercase_and_digits) l.
Proof.
  intros Hrand Horder. unfold _random_values.
  destruct (rands_list_spec randbelow Hrand (Z.to_nat k) size i)
    as (l & -> & Hlen & Hl).
  exists (set_order l). split; [reflexivity|].
  pose proof (Horder l) as Hperm. split; [|split; [|split]].
  - rewrite Hperm. apply NoDup_remove_dups.
  - rewrite Hperm, <- Hlen. apply remove_dups_length.
  - intros Hk Hnil. destruct l as [|s l]; [simpl in Hlen; lia|].
    assert (Hin : s ∈ set_order (s :: l)).
    { rewrite Hperm. apply elem_of_remove_dups. left. }
    rewrite Hnil in Hin. now apply elem_of_nil in Hin.
  - apply Forall_forall. intros s Hs. rewrite Hperm in Hs.
    rewrite !elem_of_remove_dups in Hs.
    rewrite Forall_forall in Hl. exact (Hl s Hs).
Qed.

Lemma random_values_distinct_witness :
  exists l,
    _random_values counting remove_dups 16 16 0
    = (Val l, 0 + Z.to_nat 16 * Z.to_nat 16) /\
    NoDup l /\ length l <= Z.to_nat 16 /\ ((0 < 16)%Z -> l <> []) /\
    Forall (fun s => String.length s = Z.to_nat 16 /\
                     forall c, c ∈ list_ascii_of_string s ->
                               c ∈ list_ascii_of_string uppercase_and_digits) l.
Proof.
  apply (random_values_distinct counting remove_dups 16 16 0).
  - exact counting_lt.
  - reflexivity.
Defined.
